(** * Otoshi native helpers: FNV-1a hashing, constant-time comparison,
      file hashing and the directory scanner.

    Shallow embedding of
    - [src/native/c/crypto_helper/otoshi_crypto_helper.c]
    - [src/native/cpp/fs_scanner/otoshi_fs_scanner.cpp]

    Conventions.
    - [uint64_t] values are [Z] with the wrap-around written out ([wrap64]).
    - A byte is a [Byte.byte]; [uint8] is its value as an unsigned integer.
    - A C pointer to a byte buffer is [option (list byte)]: [None] is [NULL],
      [Some l] points at the buffer [l].  Reading [data[i]] outside the buffer
      is undefined behaviour, modelled by the result [None].
    - [size_t] loop counters are [nat].
    - A library call made through a throwing overload yields an
      [FsScanner.outcome]: the value it returns, or [Throws]; an exception
      that leaves [main] ends the process without an exit code of [main]. *)

From Stdlib Require Import ZArith List Bool Lia.
From Stdlib Require Import Sorting.Permutation.
From Stdlib Require Import Strings.String Strings.Ascii Strings.Byte.
From Equations Require Import Equations.
From Equations.Prop Require Import Logic.
Import ListNotations.

(** [length] and [concat] are those of lists throughout; those of strings
    are written [String.length] and [String.concat]. *)
Local Abbreviation length := Datatypes.length.
Local Abbreviation concat := List.concat.

Local Open Scope Z_scope.

(** ** Machine integers *)

Definition wrap64 (z : Z) : Z := z mod 2 ^ 64.

Definition cast_uint8 (z : Z) : Z := z mod 2 ^ 8.

Definition uint8 (b : byte) : Z := Z.of_N (Byte.to_N b).

(** ** The crypto helper (C) *)

Module CryptoHelper.

Definition offset : Z := 1469598103934665603.
Definition prime : Z := 1099511628211.

(** One iteration of the loop body of [otoshi_fnv1a64]:
    [hash ^= (uint64_t)data[i]; hash *= prime;] *)
Definition fnv1a64_body (hash : Z) (b : byte) : Z :=
  let hash := Z.lxor hash (uint8 b) in
  wrap64 (hash * prime).

(** [for (size_t i = ..; i < len; ++i) { body }], where [n = len - i]
    iterations remain. *)
Fixpoint fnv1a64_for (data : list byte) (i n : nat) (hash : Z) : option Z :=
  match n with
  | O => Some hash
  | S n' =>
      match nth_error data i with
      | Some b => fnv1a64_for data (S i) n' (fnv1a64_body hash b)
      | None => None
      end
  end.

Definition otoshi_fnv1a64 (data : option (list byte)) (len : nat) : option Z :=
  let hash := offset in
  match data with
  | None => Some hash
  | Some bytes => fnv1a64_for bytes 0 len hash
  end.

(** Instrumentation of the comparator: every byte read is logged with the
    operand it reads from and the index read. *)
Inductive operand : Type := LeftOperand | RightOperand.

Definition access : Type := (operand * nat)%type.

(** One iteration of the loop body of [otoshi_consttime_eq]:
    [diff |= (uint8_t)(left[i] ^ right[i]);] *)
Definition consttime_body (diff : Z) (l r : byte) : Z :=
  cast_uint8 (Z.lor diff (cast_uint8 (Z.lxor (uint8 l) (uint8 r)))).

Fixpoint consttime_for (left_buf right_buf : list byte) (i n : nat)
  (diff : Z) (log : list access) : option (Z * list access) :=
  match n with
  | O => Some (diff, log)
  | S n' =>
      match nth_error left_buf i, nth_error right_buf i with
      | Some l, Some r =>
          consttime_for left_buf right_buf (S i) n' (consttime_body diff l r)
            (log ++ [(LeftOperand, i); (RightOperand, i)])
      | _, _ => None
      end
  end.

(** The comparator together with the log of its byte accesses. *)
Definition otoshi_consttime_eq_traced (left_buf right_buf : option (list byte))
  (len : nat) : option (Z * list access) :=
  match left_buf, right_buf with
  | Some l, Some r =>
      match consttime_for l r 0 len 0 [] with
      | Some (diff, log) => Some (if diff =? 0 then 1 else 0, log)
      | None => None
      end
  | _, _ => Some (0, [])
  end.

Definition otoshi_consttime_eq (left_buf right_buf : option (list byte))
  (len : nat) : option Z :=
  option_map fst (otoshi_consttime_eq_traced left_buf right_buf len).

End CryptoHelper.

(** ** The filesystem scanner (C++) *)

Module FsScanner.

Definition kOffset : Z := 1469598103934665603.
Definition kPrime : Z := 1099511628211.

(** *** Files and [std::ifstream]

    A file is its byte content together with the behaviour of the device
    under it: [read_fault = Some k] means that the read call number [k]
    (counted from 0) on a stream over the file fails with an input/output
    error; [None] means that every read succeeds. *)
Record file : Type := mk_file {
  file_bytes : list byte;
  read_fault : option nat
}.

Record ifstream : Type := mk_ifstream {
  is_open : bool;
  pending : list byte;       (* bytes of the file not yet delivered *)
  fault_in : option nat;     (* successful reads left before the device fails *)
  eofbit : bool;
  failbit : bool;
  badbit : bool;
  gcount : nat               (* bytes delivered by the last read *)
}.

(** [std::ifstream in(file_path, std::ios::binary)]: [None] is a file that
    cannot be opened (the constructor then sets [failbit]). *)
Definition ifstream_open (f : option file) : ifstream :=
  match f with
  | Some f => mk_ifstream true (file_bytes f) (read_fault f) false false false 0
  | None => mk_ifstream false [] None false true false 0
  end.

Definition good (s : ifstream) : bool :=
  negb (eofbit s || failbit s || badbit s).

(** [in.read(buffer, n)].  On a stream that is not good the sentry fails:
    [failbit] is set and nothing is extracted.  A device error sets [badbit]
    and extracts nothing.  Otherwise up to [n] bytes are stored at the start
    of [buffer]; when fewer than [n] are available, [eofbit] and [failbit]
    are set. *)
Definition istream_read (s : ifstream) (buffer : list byte) (n : nat)
  : ifstream * list byte :=
  if negb (good s) then
    (mk_ifstream (is_open s) (pending s) (fault_in s)
       (eofbit s) true (badbit s) 0, buffer)
  else
    match fault_in s with
    | Some O =>
        (mk_ifstream (is_open s) (pending s) (fault_in s)
           (eofbit s) (failbit s) true 0, buffer)
    | _ =>
        let got := firstn n (pending s) in
        let short := (length got <? n)%nat in
        (mk_ifstream (is_open s) (skipn n (pending s))
           (option_map Nat.pred (fault_in s))
           short short (badbit s) (length got),
         got ++ skipn (length got) buffer)
    end.

(** [char buffer[8192]]; its initial content is indeterminate, taken here as
    zero bytes. *)
Definition sizeof_buffer : nat := Z.to_nat 8192.

Definition buffer_init : list byte := repeat Byte.x00 sizeof_buffer.

(** One iteration of the inner loop body of [fnv1a64_file]:
    [hash ^= static_cast<uint8_t>(buffer[i]); hash *= kPrime;] *)
Definition hash_body (hash : Z) (b : byte) : Z :=
  let hash := Z.lxor hash (uint8 b) in
  wrap64 (hash * kPrime).

(** [for (std::streamsize i = ..; i < bytes; ++i) { body }], where
    [n = bytes - i] iterations remain. *)
Fixpoint hash_for (buffer : list byte) (i n : nat) (hash : Z) : option Z :=
  match n with
  | O => Some hash
  | S n' =>
      match nth_error buffer i with
      | Some b => hash_for buffer (S i) n' (hash_body hash b)
      | None => None
      end
  end.

(** The body of [while (in.good())]: one read followed by the inner loop. *)
Definition while_body (s : ifstream) (buffer : list byte) (hash : Z)
  : option (ifstream * list byte * Z) :=
  let '(s', buffer') := istream_read s buffer sizeof_buffer in
  let bytes := gcount s' in
  match hash_for buffer' 0 bytes hash with
  | Some hash' => Some (s', buffer', hash')
  | None => None
  end.

(** The loop ends: a read on a good stream either consumes [sizeof_buffer]
    pending bytes or leaves the stream not good. *)
Definition stream_measure (s : ifstream) : nat :=
  (length (pending s) + (if good s then 1 else 0))%nat.

Equations while_good (s : ifstream) (buffer : list byte) (hash : Z)
  : option Z by wf (stream_measure s) lt :=
  while_good s buffer hash with inspect (good s) := {
    | exist _ false _ => Some hash
    | exist _ true Hgood with inspect (while_body s buffer hash) := {
        | exist _ None _ => None
        | exist _ (Some (s', buffer', hash')) Hbody =>
            while_good s' buffer' hash' } }.
Next Obligation.
  assert (Hdecreases :
    forall s buffer hash s' buffer' hash',
      good s = true ->
      while_body s buffer hash = Some (s', buffer', hash') ->
      (stream_measure s' < stream_measure s)%nat).
  { clear. intros s buffer hash s' buffer' hash'.
    unfold while_body, istream_read, stream_measure.
    intros Hg. rewrite Hg. cbn [negb].
    assert (Hsz : (0 < sizeof_buffer)%nat) by (unfold sizeof_buffer; lia).
    generalize dependent sizeof_buffer. intros n Hn.
    destruct (fault_in s) as [[|k]|].
    - cbn [gcount]. destruct (hash_for _ _ _ _); [|discriminate].
      intros H; inversion H; subst; clear H.
      unfold good; cbn [pending eofbit failbit badbit].
      rewrite !orb_true_r. cbn. lia.
    - cbn [gcount]. destruct (hash_for _ _ _ _); [|discriminate].
      intros H; inversion H; subst; clear H.
      unfold good; cbn [pending eofbit failbit badbit].
      rewrite length_skipn, length_firstn.
      destruct (Nat.ltb_spec (Nat.min n (length (pending s))) n);
        cbn; destruct (badbit s); cbn; lia.
    - cbn [gcount]. destruct (hash_for _ _ _ _); [|discriminate].
      intros H; inversion H; subst; clear H.
      unfold good; cbn [pending eofbit failbit badbit].
      rewrite length_skipn, length_firstn.
      destruct (Nat.ltb_spec (Nat.min n (length (pending s))) n);
        cbn; destruct (badbit s); cbn; lia. }
  eapply Hdecreases; eauto.
Qed.

(** *** The filesystem seen by the scanner *)

(** A call of the filesystem library made without an [error_code] either
    returns a value or throws [filesystem_error]. *)
Inductive outcome (A : Type) : Type :=
| Returns (a : A)
| Throws.

Arguments Returns {A} a.
Arguments Throws {A}.

(** A directory entry as the loop of [main] observes it: [entry.path()],
    [entry.is_regular_file()], which is the throwing overload, and
    [entry.file_size(ec)], an unsigned integer, where [None] stands for an
    error code being set. *)
Record dir_entry : Type := mk_entry {
  path : string;
  is_regular_file : outcome bool;
  file_size : option N
}.

(** What the range-based [for] receives from
    [fs::recursive_directory_iterator] with [skip_permission_denied]: the
    entries it yields, in order (entries below a directory that may not be
    read are not produced), and whether the iterator then reaches the end
    ([true]) or its construction or an increment throws ([false]). *)
Record traversal : Type := mk_traversal {
  yielded : list dir_entry;
  reaches_end : bool
}.

(** The library calls of the scanner, as functions of the path:
    [fs::exists] and [fs::is_directory] in their throwing overloads, the
    traversal of [fs::recursive_directory_iterator], and the file an
    [std::ifstream] finds at a path ([None]: it cannot be opened). *)
Record filesystem : Type := mk_filesystem {
  fs_exists : string -> outcome bool;
  fs_is_directory : string -> outcome bool;
  recursive_directory_iterator : string -> traversal;
  fs_open : string -> option file
}.

Definition fnv1a64_file (fsys : filesystem) (file_path : string) : option Z :=
  let hash := kOffset in
  let inp := ifstream_open (fs_open fsys file_path) in
  if negb (is_open inp) then Some hash
  else while_good inp buffer_init hash.

(** *** Output formatting *)

Definition quote_char : ascii := "034"%char.
Definition newline_char : ascii := "010"%char.
Definition quote : string := String quote_char EmptyString.
Definition newline : string := String newline_char EmptyString.

(** The character of a digit below 16, in lowercase (no [std::uppercase]). *)
Definition digit_char (d : Z) : ascii :=
  if d <? 10 then ascii_of_N (Z.to_N (48 + d)) else ascii_of_N (Z.to_N (87 + d)).

(** The digits of an unsigned integer in the given base, most significant
    first, as [operator<<] prints them; [fuel] bounds the number of digits. *)
Fixpoint put_digits (base : Z) (fuel : nat) (z : Z) (acc : string) : string :=
  match fuel with
  | O => acc
  | S fuel' =>
      let acc' := String (digit_char (z mod base)) acc in
      if z / base =? 0 then acc' else put_digits base fuel' (z / base) acc'
  end.

(** [os << v] for a [uint64_t] under [std::dec] and under [std::hex]. *)
Definition put_dec (z : Z) : string := put_digits 10 64 z EmptyString.
Definition put_hex (z : Z) : string := put_digits 16 64 z EmptyString.

Fixpoint fill (n : nat) (c : ascii) : string :=
  match n with
  | O => EmptyString
  | S n' => String c (fill n' c)
  end.

(** [std::setw(w) << std::setfill(c)] applied to the next item: padding on
    the left up to width [w]. *)
Definition setw_setfill (w : nat) (c : ascii) (item : string) : string :=
  (fill (w - String.length item) c ++ item)%string.

(** *** [main] *)

Record scan_state : Type := mk_scan {
  file_count : Z;
  total_bytes : Z;
  aggregate : Z
}.

(** The body of the loop over the directory entries.  The result is
    [Some (Returns st)] when the body ends (by [continue] or at its end) in
    state [st], [Some Throws] when [is_regular_file] throws, and [None] on
    undefined behaviour in the file hasher. *)
Definition scan_body (fsys : filesystem) (st : scan_state) (entry : dir_entry)
  : option (outcome scan_state) :=
  match is_regular_file entry with
  | Throws => Some Throws
  | Returns regular =>
      if negb regular then Some (Returns st)
      else
        match file_size entry with
        | None => Some (Returns st)
        | Some size =>
            let file_count := wrap64 (file_count st + 1) in
            let total_bytes := wrap64 (total_bytes st + wrap64 (Z.of_N size)) in
            match fnv1a64_file fsys (path entry) with
            | None => None
            | Some file_hash =>
                let aggregate := Z.lxor (aggregate st) file_hash in
                let aggregate := wrap64 (aggregate * kPrime) in
                Some (Returns (mk_scan file_count total_bytes aggregate))
            end
        end
  end.

Fixpoint scan_for (fsys : filesystem) (entries : list dir_entry)
  (st : scan_state) : option (outcome scan_state) :=
  match entries with
  | [] => Some (Returns st)
  | entry :: rest =>
      match scan_body fsys st entry with
      | Some (Returns st') => scan_for fsys rest st'
      | Some Throws => Some Throws
      | None => None
      end
  end.

Definition scan_init : scan_state := mk_scan 0 0 1469598103934665603.

(** The traversal of [main]: the loop body run on the entries the iterator
    yields for [root], after which the iterator reaches the end or throws. *)
Definition scan (fsys : filesystem) (root : string)
  : option (outcome scan_state) :=
  let range := recursive_directory_iterator fsys root in
  match scan_for fsys (yielded range) scan_init with
  | Some (Returns st) =>
      if reaches_end range then Some (Returns st) else Some Throws
  | Some Throws => Some Throws
  | None => None
  end.

(** The text assembled in [output]. *)
Definition render (root : string) (st : scan_state) : string :=
  ("{"
   ++ quote ++ "root" ++ quote ++ ":" ++ quote ++ root ++ quote ++ ","
   ++ quote ++ "file_count" ++ quote ++ ":" ++ put_dec (file_count st) ++ ","
   ++ quote ++ "total_bytes" ++ quote ++ ":" ++ put_dec (total_bytes st) ++ ","
   ++ quote ++ "aggregate_hash" ++ quote ++ ":" ++ quote ++ "0x"
   ++ setw_setfill 16 "0"%char (put_hex (aggregate st))
   ++ quote ++ "}")%string.

(** What a run of the process leaves behind. *)
Record process : Type := mk_process {
  exit_code : Z;
  stdout : string;
  stderr : string
}.

(** The branch of [main] taken for an invalid root. *)
Definition invalid_root (root : string) : process :=
  mk_process 1 EmptyString ("invalid root: " ++ root ++ newline)%string.

(** [main(argc, argv)] with [argc = length argv].  [fs::u8path] and
    [path::string]/[path::u8string] keep the text of the path.  The result
    is [Some (Returns p)] when [main] returns, leaving [p] behind;
    [Some Throws] when a [filesystem_error] leaves [main], which has no
    handler: the process is ended by [std::terminate], it returns no exit
    code of [main] and has printed nothing of its own; [None] on undefined
    behaviour in the file hasher.  In [!exists(root) || !is_directory(root)]
    the second call is made only when the first returns [true]. *)
Definition main (fsys : filesystem) (argv : list string)
  : option (outcome process) :=
  if (length argv <? 2)%nat then
    Some (Returns (mk_process 1 EmptyString
                     ("usage: otoshi_fs_scanner <root-dir>" ++ newline)%string))
  else
    let root := nth 1 argv EmptyString in
    match fs_exists fsys root with
    | Throws => Some Throws
    | Returns found =>
        if negb found then Some (Returns (invalid_root root))
        else
          match fs_is_directory fsys root with
          | Throws => Some Throws
          | Returns directory =>
              if negb directory then Some (Returns (invalid_root root))
              else
                match scan fsys root with
                | None => None
                | Some Throws => Some Throws
                | Some (Returns st) =>
                    Some (Returns (mk_process 0 (render root st ++ newline)%string
                                     EmptyString))
                end
          end
    end.

End FsScanner.

(** ** Reference definitions, following the wording of the specification *)

Module Spec.

(** FNV-1a, 64 bits: the offset basis, then for each byte [b] in order
    [acc = (acc XOR b) * prime], wrapping modulo [2^64]. *)
Definition fnv1a_step (acc : Z) (b : byte) : Z :=
  (Z.lxor acc (uint8 b) * 1099511628211) mod 2 ^ 64.

Definition fnv1a_from (acc : Z) (bytes : list byte) : Z :=
  fold_left fnv1a_step bytes acc.

Definition fnv1a (bytes : list byte) : Z :=
  fnv1a_from 1469598103934665603 bytes.

(** The running OR of the per-position XOR differences. *)
Definition or_of_xors (l r : list byte) (diff : Z) : Z :=
  fold_left (fun d p => Z.lor d (Z.lxor (uint8 (fst p)) (uint8 (snd p))))
    (combine l r) diff.

(** The byte accesses of a comparison of [n] positions starting at [i]:
    position by position, left operand then right operand. *)
Definition accesses (i n : nat) : list CryptoHelper.access :=
  flat_map (fun j => [(CryptoHelper.LeftOperand, j);
                      (CryptoHelper.RightOperand, j)]) (seq i n).

(** The fold step of the directory aggregate. *)
Definition fold_step (aggregate file_digest : Z) : Z :=
  (Z.lxor aggregate file_digest * 1099511628211) mod 2 ^ 64.

End Spec.

(** Streaming use of the hash loop of [otoshi_fnv1a64]: the loop is run on
    each chunk in turn, started from the accumulator the previous chunk
    left. *)
Fixpoint fnv1a64_chunks (chunks : list (list byte)) (hash : Z) : option Z :=
  match chunks with
  | [] => Some hash
  | chunk :: rest =>
      match CryptoHelper.fnv1a64_for chunk 0 (length chunk) hash with
      | Some hash' => fnv1a64_chunks rest hash'
      | None => None
      end
  end.

(** The same with the inner loop of [fnv1a64_file]. *)
Fixpoint hash_chunks (chunks : list (list byte)) (hash : Z) : option Z :=
  match chunks with
  | [] => Some hash
  | chunk :: rest =>
      match FsScanner.hash_for chunk 0 (length chunk) hash with
      | Some hash' => hash_chunks rest hash'
      | None => None
      end
  end.

(** Chunked use of the exported entry point itself: [otoshi_fnv1a64] takes a
    buffer and a length only, so the accumulator left by the previous call
    cannot be handed to the next one; the digest is what the last call
    returns. *)
Definition otoshi_fnv1a64_chunked (chunks : list (list byte)) : option Z :=
  fold_left
    (fun (_ : option Z) chunk =>
       CryptoHelper.otoshi_fnv1a64 (Some chunk) (length chunk))
    chunks (Some CryptoHelper.offset).

(** The bytes a stream over a file hands out before it stops being good:
    the whole content when no read fails, and otherwise the content covered
    by the [k] reads of [sizeof_buffer] bytes that precede the failing one. *)
Definition stream_delivers (content : list byte) (fault : option nat)
  : list byte :=
  match fault with
  | None => content
  | Some k => firstn (k * FsScanner.sizeof_buffer) content
  end.

Definition delivered_bytes (f : FsScanner.file) : list byte :=
  stream_delivers (FsScanner.file_bytes f) (FsScanner.read_fault f).

(** The digest of a path, as a function of what the filesystem holds. *)
Definition file_digest (fsys : FsScanner.filesystem) (file_path : string) : Z :=
  match FsScanner.fs_open fsys file_path with
  | Some f => Spec.fnv1a (delivered_bytes f)
  | None => 1469598103934665603
  end.

(** The entries the loop of [main] does not skip: regular files whose size
    was obtained. *)
Definition visited (entry : FsScanner.dir_entry) : bool :=
  match FsScanner.is_regular_file entry with
  | FsScanner.Returns regular =>
      regular
      && match FsScanner.file_size entry with Some _ => true | None => false end
  | FsScanner.Throws => false
  end.

(** No [is_regular_file] call on these entries throws. *)
Definition entries_return (entries : list FsScanner.dir_entry) : bool :=
  forallb
    (fun entry =>
       match FsScanner.is_regular_file entry with
       | FsScanner.Returns _ => true
       | FsScanner.Throws => false
       end)
    entries.

(** The traversal runs to its end: neither the iterator nor a call of
    [is_regular_file] throws. *)
Definition traversal_returns (range : FsScanner.traversal) : bool :=
  FsScanner.reaches_end range && entries_return (FsScanner.yielded range).

Definition visited_entries (entries : list FsScanner.dir_entry)
  : list FsScanner.dir_entry :=
  filter visited entries.

Definition size_of (entry : FsScanner.dir_entry) : Z :=
  match FsScanner.file_size entry with
  | Some size => Z.of_N size
  | None => 0
  end.

(** The sum of the sizes, as an integer without bound. *)
Definition sum_sizes (entries : list FsScanner.dir_entry) : Z :=
  fold_right Z.add 0 (map size_of entries).

(** The loop body of [main] on an entry that is not skipped, with the digest
    of the file given. *)
Definition visit (fsys : FsScanner.filesystem) (st : FsScanner.scan_state)
  (entry : FsScanner.dir_entry) : FsScanner.scan_state :=
  FsScanner.mk_scan
    (wrap64 (FsScanner.file_count st + 1))
    (wrap64 (FsScanner.total_bytes st + wrap64 (size_of entry)))
    (Spec.fold_step (FsScanner.aggregate st)
       (file_digest fsys (FsScanner.path entry))).

(** ** JSON text

    A recognizer for the JSON texts the scanner is meant to print: one
    object without insignificant white space whose member values are
    strings or unsigned integers, followed by the end of the line.  String
    literals follow RFC 8259: a character is either unescaped (any character
    from U+0020 on except the quotation mark and the backslash) or a
    backslash followed by a quotation mark, a backslash, a slash or one of
    the letters b, f, n, r, t, or by the letter u and four hexadecimal
    digits.  The text is a sequence of bytes: a character above U+007F must
    be a well-formed UTF-8 sequence (RFC 3629).  The members are returned
    with the raw text of their values. *)

Module Json.

Inductive value : Type :=
| VString (raw : string)
| VNumber (digits : string).

Definition member : Type := (string * value)%type.

(** The string literal being read: a member name, or the value of a name. *)
Inductive place : Type :=
| Name
| ValueOf (name : string).

Inductive state : Type :=
| AtStart
| AtFirstName
| AtName
| InString (p : place) (raw : string)
| InEscape (p : place) (raw : string)
| InUnicode (p : place) (raw : string) (missing : nat)
| InUtf8 (p : place) (raw : string) (low high : N) (more : nat)
| AtColon (name : string)
| AtValue (name : string)
| InNumber (name : string) (digits : string)
| AfterValue
| AtEnd
| AfterLine.

Definition snoc (s : string) (c : ascii) : string :=
  (s ++ String c EmptyString)%string.

Definition is_digit (c : ascii) : bool :=
  let n := N_of_ascii c in ((48 <=? n) && (n <=? 57))%N.

Definition is_hex_digit (c : ascii) : bool :=
  let n := N_of_ascii c in
  (((48 <=? n) && (n <=? 57)) || ((97 <=? n) && (n <=? 102))
   || ((65 <=? n) && (n <=? 70)))%N.

Definition is_control (c : ascii) : bool := (N_of_ascii c <? 32)%N.

Definition is_simple_escape (c : ascii) : bool :=
  existsb (Ascii.eqb c)
    ["034"; "\"; "/"; "b"; "f"; "n"; "r"; "t"]%char.

(** After the first byte of a UTF-8 sequence: the bounds of the second byte
    and the number of continuation bytes after the second. *)
Definition utf8_lead (n : N) : option (N * N * nat) :=
  (if (194 <=? n) && (n <=? 223) then Some (128, 191, 0%nat)
   else if n =? 224 then Some (160, 191, 1%nat)
   else if ((225 <=? n) && (n <=? 236)) || ((238 <=? n) && (n <=? 239))
   then Some (128, 191, 1%nat)
   else if n =? 237 then Some (128, 159, 1%nat)
   else if n =? 240 then Some (144, 191, 2%nat)
   else if (241 <=? n) && (n <=? 243) then Some (128, 191, 2%nat)
   else if n =? 244 then Some (128, 143, 2%nat)
   else None)%N.

Definition close_string (p : place) (raw : string) (members : list member)
  : state * list member :=
  match p with
  | Name => (AtColon raw, members)
  | ValueOf name => (AfterValue, members ++ [(name, VString raw)])
  end.

Definition step (st : state) (members : list member) (c : ascii)
  : option (state * list member) :=
  match st with
  | AtStart =>
      if Ascii.eqb c "{" then Some (AtFirstName, members) else None
  | AtFirstName =>
      if Ascii.eqb c "034" then Some (InString Name EmptyString, members)
      else if Ascii.eqb c "}" then Some (AtEnd, members)
      else None
  | AtName =>
      if Ascii.eqb c "034" then Some (InString Name EmptyString, members)
      else None
  | InString p raw =>
      if Ascii.eqb c "034" then Some (close_string p raw members)
      else if Ascii.eqb c "\" then Some (InEscape p (snoc raw c), members)
      else if is_control c then None
      else if (N_of_ascii c <? 128)%N then
        Some (InString p (snoc raw c), members)
      else
        match utf8_lead (N_of_ascii c) with
        | Some (low, high, more) =>
            Some (InUtf8 p (snoc raw c) low high more, members)
        | None => None
        end
  | InUtf8 p raw low high more =>
      if ((low <=? N_of_ascii c) && (N_of_ascii c <=? high))%N then
        match more with
        | O => Some (InString p (snoc raw c), members)
        | S more' => Some (InUtf8 p (snoc raw c) 128 191 more', members)
        end
      else None
  | InEscape p raw =>
      if is_simple_escape c then Some (InString p (snoc raw c), members)
      else if Ascii.eqb c "u" then Some (InUnicode p (snoc raw c) 4, members)
      else None
  | InUnicode p raw missing =>
      if is_hex_digit c then
        match missing with
        | S (S n) => Some (InUnicode p (snoc raw c) (S n), members)
        | _ => Some (InString p (snoc raw c), members)
        end
      else None
  | AtColon name =>
      if Ascii.eqb c ":" then Some (AtValue name, members) else None
  | AtValue name =>
      if Ascii.eqb c "034" then Some (InString (ValueOf name) EmptyString, members)
      else if is_digit c then Some (InNumber name (String c EmptyString), members)
      else None
  | InNumber name digits =>
      if is_digit c then
        if String.eqb digits "0" then None
        else Some (InNumber name (snoc digits c), members)
      else if Ascii.eqb c "," then
        Some (AtName, members ++ [(name, VNumber digits)])
      else if Ascii.eqb c "}" then
        Some (AtEnd, members ++ [(name, VNumber digits)])
      else None
  | AfterValue =>
      if Ascii.eqb c "," then Some (AtName, members)
      else if Ascii.eqb c "}" then Some (AtEnd, members)
      else None
  | AtEnd =>
      if Ascii.eqb c "010" then Some (AfterLine, members) else None
  | AfterLine => None
  end.

Fixpoint run (text : string) (st : state) (members : list member)
  : option (state * list member) :=
  match text with
  | EmptyString => Some (st, members)
  | String c rest =>
      match step st members c with
      | Some (st', members') => run rest st' members'
      | None => None
      end
  end.

(** The members of the object a line of output holds, when it holds one. *)
Definition parse_line (line : string) : option (list member) :=
  match run line AtStart [] with
  | Some (AfterLine, members) => Some members
  | _ => None
  end.

End Json.

(** ** Properties of printed text *)

Fixpoint string_forall (f : ascii -> bool) (s : string) : bool :=
  match s with
  | EmptyString => true
  | String c rest => f c && string_forall f rest
  end.

(** A lowercase hexadecimal digit: 0-9 or a-f. *)
Definition is_lower_hex (c : ascii) : bool :=
  let n := N_of_ascii c in
  (((48 <=? n) && (n <=? 57)) || ((97 <=? n) && (n <=? 102)))%N.

(** A character that may stand unescaped in a JSON string literal. *)
Definition json_unescaped (c : ascii) : bool :=
  negb (Ascii.eqb c "034") && negb (Ascii.eqb c "\") && negb (Json.is_control c).

(** An ASCII character that stands for itself in a JSON string literal: from
    U+0020 to U+007F, neither the quotation mark nor the backslash. *)
Definition json_plain (c : ascii) : bool :=
  json_unescaped c && (N_of_ascii c <? 128)%N.

(** ** Concrete filesystems *)

Module Examples.

Local Open Scope string_scope.

(** A directory [d] holding the regular file [d/a] with content "abc", a
    subdirectory [d/sub] and an entry [d/b] whose size cannot be obtained. *)
Definition fs_small : FsScanner.filesystem :=
  FsScanner.mk_filesystem
    (fun p => FsScanner.Returns (String.eqb p "d" || String.eqb p "d/a"))
    (fun p => FsScanner.Returns (String.eqb p "d"))
    (fun p =>
       FsScanner.mk_traversal
         (if String.eqb p "d" then
            [FsScanner.mk_entry "d/a" (FsScanner.Returns true) (Some 3%N);
             FsScanner.mk_entry "d/sub" (FsScanner.Returns false) None;
             FsScanner.mk_entry "d/b" (FsScanner.Returns true) None]
          else [])
         true)
    (fun p =>
       if String.eqb p "d/a"
       then Some (FsScanner.mk_file [x61; x62; x63] None)
       else None).

(** A file with content "abc" that can be opened and whose device fails on
    the first read. *)
Definition fs_faulty : FsScanner.filesystem :=
  FsScanner.mk_filesystem
    (fun p => FsScanner.Returns true) (fun p => FsScanner.Returns false)
    (fun p => FsScanner.mk_traversal [] true)
    (fun p => Some (FsScanner.mk_file [x61; x62; x63] (Some 0%nat))).

(** A directory [d] of three sparse regular files of [2^63 - 1] bytes each,
    none of which may be opened for reading. *)
Definition fs_sparse : FsScanner.filesystem :=
  FsScanner.mk_filesystem
    (fun p => FsScanner.Returns (String.eqb p "d"))
    (fun p => FsScanner.Returns (String.eqb p "d"))
    (fun p =>
       FsScanner.mk_traversal
         (if String.eqb p "d" then
            [FsScanner.mk_entry "d/x" (FsScanner.Returns true)
               (Some 9223372036854775807%N);
             FsScanner.mk_entry "d/y" (FsScanner.Returns true)
               (Some 9223372036854775807%N);
             FsScanner.mk_entry "d/z" (FsScanner.Returns true)
               (Some 9223372036854775807%N)]
          else [])
         true)
    (fun p => None).

(** A file of 20000 bytes, read in three turns of the loop, and a file of
    exactly [sizeof(buffer)] bytes, read in two (the second read is empty). *)
Definition bytes_20000 : list byte := repeat x61 (Z.to_nat 20000).
Definition bytes_8192 : list byte := repeat x62 (Z.to_nat 8192).

Definition fs_large : FsScanner.filesystem :=
  FsScanner.mk_filesystem
    (fun p => FsScanner.Returns true) (fun p => FsScanner.Returns false)
    (fun p => FsScanner.mk_traversal [] true)
    (fun p =>
       if String.eqb p "large" then Some (FsScanner.mk_file bytes_20000 None)
       else if String.eqb p "full" then Some (FsScanner.mk_file bytes_8192 None)
       else if String.eqb p "broken"
       then Some (FsScanner.mk_file bytes_20000 (Some 1%nat))
       else None).

(** An empty directory at a path written with a backslash. *)
Definition fs_backslash : FsScanner.filesystem :=
  FsScanner.mk_filesystem
    (fun p => FsScanner.Returns (String.eqb p "C:\Games"))
    (fun p => FsScanner.Returns (String.eqb p "C:\Games"))
    (fun p => FsScanner.mk_traversal [] true)
    (fun p => None).

(** A name of 300 letters, longer than a file name may be. *)
Definition long_root : string :=
  String.concat "" (repeat "a" (Z.to_nat 300)).

(** A filesystem with the directory [d], where a query on a path longer than
    255 characters fails with an error ("File name too long") that
    [fs::exists] and [fs::is_directory] report by throwing.  In [d] the
    entry [d/loop] is a link whose status cannot be obtained, so that
    [is_regular_file] throws; the regular file [d/a] comes after it. *)
Definition fs_errors : FsScanner.filesystem :=
  FsScanner.mk_filesystem
    (fun p => if (255 <? String.length p)%nat then FsScanner.Throws
              else FsScanner.Returns (String.eqb p "d"))
    (fun p => if (255 <? String.length p)%nat then FsScanner.Throws
              else FsScanner.Returns (String.eqb p "d"))
    (fun p =>
       FsScanner.mk_traversal
         (if String.eqb p "d" then
            [FsScanner.mk_entry "d/loop" FsScanner.Throws None;
             FsScanner.mk_entry "d/a" (FsScanner.Returns true) (Some 3%N)]
          else [])
         true)
    (fun p =>
       if String.eqb p "d/a"
       then Some (FsScanner.mk_file [x61; x62; x63] None)
       else None).

End Examples.

(** ** Reading printed numbers back *)

(** The value of a digit character, decimal or lowercase hexadecimal. *)
Definition digit_value (c : ascii) : option Z :=
  let n := Z.of_N (N_of_ascii c) in
  if (48 <=? n) && (n <=? 57) then Some (n - 48)
  else if (97 <=? n) && (n <=? 102) then Some (n - 87)
  else None.

(** The number a text of digits denotes in the given base, most significant
    digit first, continuing from [acc]. *)
Fixpoint read_digits (base : Z) (s : string) (acc : Z) : option Z :=
  match s with
  | EmptyString => Some acc
  | String c rest =>
      match digit_value c with
      | Some d =>
          if d <? base then read_digits base rest (acc * base + d) else None
      | None => None
      end
  end.

(** What a consumer recovers from a line of output: the root and the three
    numbers, when the line is a JSON object with the members [root],
    [file_count], [total_bytes] and [aggregate_hash] in this order, the two
    counts decimal and the hash written 0x and hexadecimal digits. *)
Definition strip_0x (s : string) : option string :=
  match s with
  | String "0" (String "x" rest) => Some rest
  | _ => None
  end.

Definition decode_line (line : string)
  : option (string * FsScanner.scan_state) :=
  match Json.parse_line line with
  | Some [(k1, Json.VString root); (k2, Json.VNumber count);
          (k3, Json.VNumber bytes); (k4, Json.VString hash)] =>
      if (String.eqb k1 "root" && String.eqb k2 "file_count"
          && String.eqb k3 "total_bytes" && String.eqb k4 "aggregate_hash")%bool
      then
        match read_digits 10 count 0, read_digits 10 bytes 0, strip_0x hash with
        | Some c, Some b, Some digits =>
            match read_digits 16 digits 0 with
            | Some a => Some (root, FsScanner.mk_scan c b a)
            | None => None
            end
        | _, _, _ => None
        end
      else None
  | _ => None
  end.

(** The inverse of the FNV prime modulo [2^64]. *)
Definition prime_inverse : Z := 14886173955864302971.

(** ** More concrete filesystems *)

Module MoreExamples.

Local Open Scope string_scope.

(** [Examples.fs_small] after the last byte of [d/a] changed. *)
Definition fs_small_changed : FsScanner.filesystem :=
  FsScanner.mk_filesystem
    (FsScanner.fs_exists Examples.fs_small)
    (FsScanner.fs_is_directory Examples.fs_small)
    (FsScanner.recursive_directory_iterator Examples.fs_small)
    (fun p =>
       if String.eqb p "d/a"
       then Some (FsScanner.mk_file [x61; x62; x64] None)
       else None).

(** A directory [d] with one regular file [d/a] of reported size 0 that
    cannot be opened, and the same directory where [d/a] opens and is
    empty. *)
Definition fs_unreadable : FsScanner.filesystem :=
  FsScanner.mk_filesystem
    (fun p => FsScanner.Returns (String.eqb p "d"))
    (fun p => FsScanner.Returns (String.eqb p "d"))
    (fun p =>
       FsScanner.mk_traversal
         [FsScanner.mk_entry "d/a" (FsScanner.Returns true) (Some 0%N)] true)
    (fun p => None).

Definition fs_empty_file : FsScanner.filesystem :=
  FsScanner.mk_filesystem
    (fun p => FsScanner.Returns (String.eqb p "d"))
    (fun p => FsScanner.Returns (String.eqb p "d"))
    (fun p =>
       FsScanner.mk_traversal
         [FsScanner.mk_entry "d/a" (FsScanner.Returns true) (Some 0%N)] true)
    (fun p => if String.eqb p "d/a"
              then Some (FsScanner.mk_file [] None) else None).

(** Two regular files of one byte each, "a" and "b". *)
Definition entry_a : FsScanner.dir_entry :=
  FsScanner.mk_entry "d/a" (FsScanner.Returns true) (Some 1%N).
Definition entry_b : FsScanner.dir_entry :=
  FsScanner.mk_entry "d/b" (FsScanner.Returns true) (Some 1%N).

Definition fs_two_files : FsScanner.filesystem :=
  FsScanner.mk_filesystem
    (fun p => FsScanner.Returns (String.eqb p "d"))
    (fun p => FsScanner.Returns (String.eqb p "d"))
    (fun p => FsScanner.mk_traversal [entry_a; entry_b] true)
    (fun p =>
       if String.eqb p "d/a" then Some (FsScanner.mk_file [x61] None)
       else if String.eqb p "d/b" then Some (FsScanner.mk_file [x62] None)
       else None).

(** A good stream over the three bytes "abc", and two buffers of
    [sizeof(buffer)] bytes with different contents. *)
Definition stream_abc : FsScanner.ifstream :=
  FsScanner.ifstream_open (Some (FsScanner.mk_file [x61; x62; x63] None)).

Definition buffer_zeros : list byte := repeat x00 FsScanner.sizeof_buffer.
Definition buffer_ones : list byte := repeat xff FsScanner.sizeof_buffer.

End MoreExamples.

(** ** Lists and machine integers *)

Lemma skipn_nth_error {A} (l : list A) i x :
  nth_error l i = Some x -> skipn i l = x :: skipn (S i) l.
Proof.
  revert l; induction i as [|i IH]; intros [|y l] H; try discriminate.
  - now inversion H.
  - cbn in H. apply IH in H. exact H.
Qed.

Lemma nth_error_in_range {A} (l : list A) i :
  (i < length l)%nat -> exists x, nth_error l i = Some x.
Proof.
  intros H. destruct (nth_error l i) eqn:E; [eauto|].
  apply nth_error_None in E. lia.
Qed.

Lemma firstn_skipn_0 {A} (l : list A) n :
  length l = n -> firstn n (skipn 0 l) = l.
Proof. intros <-. cbn. apply firstn_all. Qed.

Lemma uint8_range b : 0 <= uint8 b < 2 ^ 8.
Proof.
  unfold uint8. pose proof (Byte.to_N_bounded b) as H.
  change (2 ^ 8) with 256. lia.
Qed.

Lemma uint8_inj a b : uint8 a = uint8 b -> a = b.
Proof.
  unfold uint8. intros H. apply N2Z.inj in H.
  pose proof (Byte.of_to_N a) as Ha. rewrite H, Byte.of_to_N in Ha.
  now inversion Ha.
Qed.

Lemma cast_uint8_land z : cast_uint8 z = Z.land z (Z.ones 8).
Proof. unfold cast_uint8. now rewrite Z.land_ones by lia. Qed.

Lemma cast_uint8_small z : 0 <= z < 2 ^ 8 -> cast_uint8 z = z.
Proof. intros H. unfold cast_uint8. now apply Z.mod_small. Qed.

Lemma cast_uint8_range z : 0 <= cast_uint8 z < 2 ^ 8.
Proof. unfold cast_uint8. apply Z.mod_pos_bound. lia. Qed.

Lemma cast_uint8_lor a b :
  cast_uint8 (Z.lor a b) = Z.lor (cast_uint8 a) (cast_uint8 b).
Proof. rewrite !cast_uint8_land. apply Z.land_lor_distr_l. Qed.

Lemma cast_uint8_lxor a b :
  cast_uint8 (Z.lxor a b) = Z.lxor (cast_uint8 a) (cast_uint8 b).
Proof.
  rewrite !cast_uint8_land. apply Z.bits_inj'. intros n _.
  rewrite !Z.land_spec, !Z.lxor_spec, !Z.land_spec.
  now destruct (Z.testbit a n), (Z.testbit b n), (Z.testbit (Z.ones 8) n).
Qed.

Lemma cast_uint8_idem z : cast_uint8 (cast_uint8 z) = cast_uint8 z.
Proof. apply cast_uint8_small, cast_uint8_range. Qed.

Lemma wrap64_range z : 0 <= wrap64 z < 2 ^ 64.
Proof. unfold wrap64. apply Z.mod_pos_bound. lia. Qed.

(** ** The hash primitive *)

Lemma fnv1a64_body_step hash b :
  CryptoHelper.fnv1a64_body hash b = Spec.fnv1a_step hash b.
Proof. reflexivity. Qed.

Lemma hash_body_step hash b :
  FsScanner.hash_body hash b = Spec.fnv1a_step hash b.
Proof. reflexivity. Qed.

Lemma fnv1a_from_app acc l1 l2 :
  Spec.fnv1a_from acc (l1 ++ l2) = Spec.fnv1a_from (Spec.fnv1a_from acc l1) l2.
Proof. unfold Spec.fnv1a_from. apply fold_left_app. Qed.

(** The loop of [otoshi_fnv1a64] over positions [i .. i+n-1] of a buffer that
    holds them is the fold of the FNV-1a step over those bytes. *)
Lemma fnv1a64_for_fold data n :
  forall i hash,
    (i + n <= length data)%nat ->
    CryptoHelper.fnv1a64_for data i n hash
    = Some (Spec.fnv1a_from hash (firstn n (skipn i data))).
Proof.
  induction n as [|n IH]; intros i hash Hlen; cbn [CryptoHelper.fnv1a64_for].
  - reflexivity.
  - destruct (nth_error_in_range data i) as [b Hb]; [lia|].
    rewrite Hb, IH by lia.
    rewrite (skipn_nth_error _ _ _ Hb). cbn [firstn].
    reflexivity.
Qed.

(** A read past the end of the buffer is undefined behaviour. *)
Lemma fnv1a64_for_overrun data n :
  forall i hash,
    (i <= length data < i + n)%nat ->
    CryptoHelper.fnv1a64_for data i n hash = None.
Proof.
  induction n as [|n IH]; intros i hash Hlen; cbn [CryptoHelper.fnv1a64_for].
  - lia.
  - destruct (nth_error data i) as [b|] eqn:Hb; [|reflexivity].
    apply IH. assert (i < length data)%nat by (apply nth_error_Some; congruence).
    lia.
Qed.

Lemma hash_for_fnv1a64_for buffer n :
  forall i hash,
    FsScanner.hash_for buffer i n hash = CryptoHelper.fnv1a64_for buffer i n hash.
Proof.
  induction n as [|n IH]; intros i hash; cbn; [reflexivity|].
  destruct (nth_error buffer i); [apply IH | reflexivity].
Qed.

Lemma fnv1a64_for_whole data hash :
  CryptoHelper.fnv1a64_for data 0 (length data) hash
  = Some (Spec.fnv1a_from hash data).
Proof.
  rewrite fnv1a64_for_fold by lia. now rewrite firstn_skipn_0.
Qed.

Lemma otoshi_fnv1a64_whole data :
  CryptoHelper.otoshi_fnv1a64 (Some data) (length data) = Some (Spec.fnv1a data).
Proof. unfold CryptoHelper.otoshi_fnv1a64. apply fnv1a64_for_whole. Qed.

Lemma fnv1a_from_concat chunks :
  forall acc,
    Spec.fnv1a_from acc (concat chunks)
    = fold_left Spec.fnv1a_from chunks acc.
Proof.
  induction chunks as [|c cs IH]; intros acc; cbn [List.concat].
  - reflexivity.
  - rewrite fnv1a_from_app, IH. reflexivity.
Qed.

Lemma fnv1a64_chunks_fold chunks :
  forall hash,
    fnv1a64_chunks chunks hash = Some (fold_left Spec.fnv1a_from chunks hash).
Proof.
  induction chunks as [|c cs IH]; intros hash; cbn [fnv1a64_chunks fold_left].
  - reflexivity.
  - now rewrite fnv1a64_for_whole, IH.
Qed.

Lemma hash_chunks_fold chunks :
  forall hash,
    hash_chunks chunks hash = Some (fold_left Spec.fnv1a_from chunks hash).
Proof.
  induction chunks as [|c cs IH]; intros hash; cbn [hash_chunks fold_left].
  - reflexivity.
  - now rewrite hash_for_fnv1a64_for, fnv1a64_for_whole, IH.
Qed.

Example otoshi_fnv1a64_abc :
  CryptoHelper.otoshi_fnv1a64 (Some [x61; x62; x63]) 3
  = Some 16242233503745875709.
Proof. reflexivity. Qed.

Example otoshi_fnv1a64_overrun :
  CryptoHelper.otoshi_fnv1a64 (Some [x61; x62; x63]) 4 = None.
Proof. reflexivity. Qed.

(** C1. For a buffer [data] of [len] bytes, [otoshi_fnv1a64] returns the fold
    of the FNV-1a 64-bit step over the bytes in order, started from the
    offset basis 1469598103934665603 with [acc = (acc XOR b) * 1099511628211]
    modulo [2^64]; for a null pointer (whatever the length) and for a zero
    length it returns the offset basis. *)
Theorem otoshi_fnv1a64_is_fnv1a_fold :
  (forall (data : list byte) (len : nat),
      length data = len ->
      CryptoHelper.otoshi_fnv1a64 (Some data) len
      = Some (fold_left
                (fun acc b => (Z.lxor acc (uint8 b) * 1099511628211) mod 2 ^ 64)
                data 1469598103934665603))
  /\ (forall len : nat,
         CryptoHelper.otoshi_fnv1a64 None len = Some 1469598103934665603)
  /\ (forall data : option (list byte),
         CryptoHelper.otoshi_fnv1a64 data 0 = Some 1469598103934665603).
Proof.
  split; [|split].
  - intros data len <-. apply otoshi_fnv1a64_whole.
  - reflexivity.
  - intros [data|]; reflexivity.
Qed.

Lemma otoshi_fnv1a64_is_fnv1a_fold_witness :
  length [x61; x62; x63] = 3%nat
  /\ CryptoHelper.otoshi_fnv1a64 (Some [x61; x62; x63]) 3
     = Some 16242233503745875709.
Proof.
  split; [reflexivity|].
  exact (proj1 otoshi_fnv1a64_is_fnv1a_fold [x61; x62; x63] 3%nat eq_refl).
Defined.

(** C2, as the code has it.  For every byte sequence and every split of it
    into consecutive chunks, the digest [otoshi_fnv1a64] returns for the
    whole sequence is the accumulator obtained by running the FNV-1a byte
    loop on each chunk in order, each run started from the accumulator the
    previous chunk left and the first from the offset basis; this holds for
    the loop of [otoshi_fnv1a64] and for the inner loop of [fnv1a64_file],
    which carries [hash] across reads in this way. *)
Theorem chunked_loop_equals_one_shot :
  forall chunks : list (list byte),
    CryptoHelper.otoshi_fnv1a64 (Some (concat chunks)) (length (concat chunks))
    = fnv1a64_chunks chunks CryptoHelper.offset
    /\ CryptoHelper.otoshi_fnv1a64 (Some (concat chunks)) (length (concat chunks))
       = hash_chunks chunks FsScanner.kOffset
    /\ exists digest,
         CryptoHelper.otoshi_fnv1a64 (Some (concat chunks)) (length (concat chunks))
         = Some digest.
Proof.
  intros chunks.
  rewrite otoshi_fnv1a64_whole, fnv1a64_chunks_fold, hash_chunks_fold.
  unfold Spec.fnv1a. rewrite fnv1a_from_concat.
  repeat split; eauto.
Qed.

(** C2, as stated, fails for the exported entry point: [otoshi_fnv1a64] has
    no parameter for an initial state, every call starts from the offset
    basis, so hashing the chunks "a" then "b" through it does not give the
    digest of "ab". *)
Lemma otoshi_fnv1a64_restarts_each_call :
  otoshi_fnv1a64_chunked [[x61]; [x62]]
  <> CryptoHelper.otoshi_fnv1a64 (Some (concat [[x61]; [x62]])) 2.
Proof. vm_compute. discriminate. Qed.

(** ** The constant-time comparator *)

Lemma consttime_body_lor diff l r :
  cast_uint8 diff = diff ->
  CryptoHelper.consttime_body diff l r
  = Z.lor diff (Z.lxor (uint8 l) (uint8 r)).
Proof.
  intros Hd. unfold CryptoHelper.consttime_body.
  rewrite cast_uint8_lor, cast_uint8_idem, cast_uint8_lxor, Hd.
  now rewrite !(cast_uint8_small (uint8 _)) by apply uint8_range.
Qed.

Lemma consttime_body_uint8 diff l r :
  cast_uint8 (CryptoHelper.consttime_body diff l r)
  = CryptoHelper.consttime_body diff l r.
Proof. apply cast_uint8_idem. Qed.

Lemma accesses_succ i n :
  Spec.accesses i (S n)
  = [(CryptoHelper.LeftOperand, i); (CryptoHelper.RightOperand, i)]
      ++ Spec.accesses (S i) n.
Proof. reflexivity. Qed.

Lemma accesses_length i n : length (Spec.accesses i n) = (2 * n)%nat.
Proof.
  revert i; induction n as [|n IH]; intros i; [reflexivity|].
  rewrite accesses_succ, length_app, IH. cbn. lia.
Qed.

(** The loop of [otoshi_consttime_eq] reads positions [i .. i+n-1] of both
    operands, whatever they hold, and leaves in [diff] the OR of their XORs. *)
Lemma consttime_for_spec left_buf right_buf n :
  forall i diff log,
    (i + n <= length left_buf)%nat ->
    (i + n <= length right_buf)%nat ->
    cast_uint8 diff = diff ->
    CryptoHelper.consttime_for left_buf right_buf i n diff log
    = Some (Spec.or_of_xors (firstn n (skipn i left_buf))
              (firstn n (skipn i right_buf)) diff,
            log ++ Spec.accesses i n).
Proof.
  induction n as [|n IH]; intros i diff log Hl Hr Hd;
    cbn [CryptoHelper.consttime_for].
  - cbn. now rewrite app_nil_r.
  - destruct (nth_error_in_range left_buf i) as [a Ha]; [lia|].
    destruct (nth_error_in_range right_buf i) as [b Hb]; [lia|].
    rewrite Ha, Hb, IH by (try lia; apply consttime_body_uint8).
    rewrite (skipn_nth_error _ _ _ Ha), (skipn_nth_error _ _ _ Hb).
    rewrite consttime_body_lor by exact Hd.
    rewrite accesses_succ, <- app_assoc. reflexivity.
Qed.

Lemma or_of_xors_zero l :
  forall r diff,
    length l = length r ->
    (Spec.or_of_xors l r diff = 0 <-> diff = 0 /\ l = r).
Proof.
  induction l as [|a l IH]; intros [|b r] diff Hlen; try discriminate.
  - cbn. tauto.
  - unfold Spec.or_of_xors in *. cbn [combine fold_left fst snd].
    rewrite IH by (cbn in Hlen; lia).
    rewrite Z.lor_eq_0_iff. split.
    + intros [[Hd Hx] ->]. apply Z.lxor_eq, uint8_inj in Hx. now subst.
    + intros [Hd H]. inversion H; subst. now rewrite Z.lxor_nilpotent.
Qed.

Lemma firstn_eq_pointwise {A} (l r : list A) n :
  (n <= length l)%nat -> (n <= length r)%nat ->
  (firstn n l = firstn n r
   <-> forall i, (i < n)%nat -> nth_error l i = nth_error r i).
Proof.
  intros Hl Hr. split.
  - intros H i Hi. apply Nat.ltb_lt in Hi.
    pose proof (nth_error_firstn n l i) as El.
    pose proof (nth_error_firstn n r i) as Er.
    rewrite Hi in El, Er. now rewrite <- El, <- Er, H.
  - intros H. apply nth_error_ext. intros i.
    rewrite !nth_error_firstn.
    destruct (Nat.ltb_spec i n) as [Hi|Hi]; [now apply H | reflexivity].
Qed.

Lemma otoshi_consttime_eq_traced_run l r len :
  (len <= length l)%nat -> (len <= length r)%nat ->
  CryptoHelper.otoshi_consttime_eq_traced (Some l) (Some r) len
  = Some (if Spec.or_of_xors (firstn len l) (firstn len r) 0 =? 0
          then 1 else 0,
          Spec.accesses 0 len).
Proof.
  intros Hl Hr. unfold CryptoHelper.otoshi_consttime_eq_traced.
  rewrite consttime_for_spec by (try lia; reflexivity).
  reflexivity.
Qed.

Lemma accesses_in i n op j :
  (i <= j < i + n)%nat -> In (op, j) (Spec.accesses i n).
Proof.
  intros Hj. unfold Spec.accesses. apply in_flat_map.
  exists j. split; [apply in_seq; lia|].
  destruct op; cbn; auto.
Qed.

Lemma otoshi_consttime_eq_value l r len :
  (len <= length l)%nat -> (len <= length r)%nat ->
  CryptoHelper.otoshi_consttime_eq (Some l) (Some r) len
  = Some (if Spec.or_of_xors (firstn len l) (firstn len r) 0 =? 0
          then 1 else 0).
Proof.
  intros Hl Hr. unfold CryptoHelper.otoshi_consttime_eq.
  now rewrite otoshi_consttime_eq_traced_run.
Qed.

Lemma or_of_xors_firstn_zero l r len :
  (len <= length l)%nat -> (len <= length r)%nat ->
  (Spec.or_of_xors (firstn len l) (firstn len r) 0 = 0
   <-> forall i, (i < len)%nat -> nth_error l i = nth_error r i).
Proof.
  intros Hl Hr.
  rewrite or_of_xors_zero by (rewrite !length_firstn; lia).
  rewrite <- firstn_eq_pointwise by assumption. tauto.
Qed.

Example otoshi_consttime_eq_differs_last :
  CryptoHelper.otoshi_consttime_eq_traced
    (Some [x61; x62; x63]) (Some [x61; x62; x64]) 3
  = Some (0, Spec.accesses 0 3).
Proof. reflexivity. Qed.

(** C5. For two buffers holding at least the declared [len] bytes,
    [otoshi_consttime_eq] returns 1 exactly when the two buffers agree at
    every one of the first [len] positions and 0 otherwise (so 1 for
    [len = 0]); when either pointer is null it returns 0 whatever [len] is. *)
Theorem otoshi_consttime_eq_iff_bytes_equal :
  (forall (l r : list byte) (len : nat),
      (len <= length l)%nat -> (len <= length r)%nat ->
      (CryptoHelper.otoshi_consttime_eq (Some l) (Some r) len = Some 1
       <-> (forall i, (i < len)%nat -> nth_error l i = nth_error r i))
      /\ (CryptoHelper.otoshi_consttime_eq (Some l) (Some r) len = Some 0
          <-> ~ (forall i, (i < len)%nat -> nth_error l i = nth_error r i)))
  /\ (forall l r : list byte,
         CryptoHelper.otoshi_consttime_eq (Some l) (Some r) 0 = Some 1)
  /\ (forall (r : option (list byte)) (len : nat),
         CryptoHelper.otoshi_consttime_eq None r len = Some 0)
  /\ (forall (l : option (list byte)) (len : nat),
         CryptoHelper.otoshi_consttime_eq l None len = Some 0).
Proof.
  split; [|split; [|split]].
  - intros l r len Hl Hr.
    rewrite otoshi_consttime_eq_value by assumption.
    rewrite <- (or_of_xors_firstn_zero l r len Hl Hr).
    destruct (Z.eqb_spec (Spec.or_of_xors (firstn len l) (firstn len r) 0) 0)
      as [E|E]; split; split; intros H; try tauto; try discriminate.
  - intros l r. reflexivity.
  - intros r len. reflexivity.
  - intros [l|] len; reflexivity.
Qed.

Lemma otoshi_consttime_eq_iff_bytes_equal_witness :
  (2 <= length [x61; x62; x63])%nat
  /\ (2 <= length [x61; x62; x64])%nat
  /\ CryptoHelper.otoshi_consttime_eq
       (Some [x61; x62; x63]) (Some [x61; x62; x64]) 2 = Some 1.
Proof.
  assert (Hl : (2 <= length [x61; x62; x63])%nat) by (cbn; lia).
  assert (Hr : (2 <= length [x61; x62; x64])%nat) by (cbn; lia).
  split; [exact Hl|]. split; [exact Hr|].
  apply (proj1 otoshi_consttime_eq_iff_bytes_equal
           [x61; x62; x63] [x61; x62; x64] 2%nat Hl Hr).
  intros [|[|i]] Hi; [reflexivity | reflexivity | lia].
Defined.

(** C6. On two non-null buffers holding at least [len] bytes the comparator
    does not stop at a mismatch: its result is computed from the OR of the
    XOR differences of all [len] positions, and it reads position 0, 1, ...,
    [len - 1] of the left and of the right operand, [2 * len] byte reads in
    all; the sequence of reads is the same for every other pair of such
    buffers, wherever they differ or not. *)
Theorem otoshi_consttime_eq_reads_every_position :
  forall (l r : list byte) (len : nat),
    (len <= length l)%nat -> (len <= length r)%nat ->
    CryptoHelper.otoshi_consttime_eq_traced (Some l) (Some r) len
    = Some (if Spec.or_of_xors (firstn len l) (firstn len r) 0 =? 0
            then 1 else 0,
            Spec.accesses 0 len)
    /\ length (Spec.accesses 0 len) = (2 * len)%nat
    /\ (forall i, (i < len)%nat ->
                  In (CryptoHelper.LeftOperand, i) (Spec.accesses 0 len)
                  /\ In (CryptoHelper.RightOperand, i) (Spec.accesses 0 len))
    /\ (forall l' r' : list byte,
           (len <= length l')%nat -> (len <= length r')%nat ->
           option_map snd
             (CryptoHelper.otoshi_consttime_eq_traced (Some l') (Some r') len)
           = option_map snd
               (CryptoHelper.otoshi_consttime_eq_traced (Some l) (Some r) len)).
Proof.
  intros l r len Hl Hr. split; [|split; [|split]].
  - now apply otoshi_consttime_eq_traced_run.
  - apply accesses_length.
  - intros i Hi. split; apply accesses_in; lia.
  - intros l' r' Hl' Hr'.
    now rewrite !otoshi_consttime_eq_traced_run.
Qed.

Lemma otoshi_consttime_eq_reads_every_position_witness :
  (3 <= length [x00; x62; x63])%nat
  /\ (3 <= length [x61; x62; x63])%nat
  /\ CryptoHelper.otoshi_consttime_eq_traced
       (Some [x00; x62; x63]) (Some [x61; x62; x63]) 3
     = Some (0, [(CryptoHelper.LeftOperand, 0%nat); (CryptoHelper.RightOperand, 0%nat);
                 (CryptoHelper.LeftOperand, 1%nat); (CryptoHelper.RightOperand, 1%nat);
                 (CryptoHelper.LeftOperand, 2%nat); (CryptoHelper.RightOperand, 2%nat)]).
Proof.
  assert (Hl : (3 <= length [x00; x62; x63])%nat) by (cbn; lia).
  assert (Hr : (3 <= length [x61; x62; x63])%nat) by (cbn; lia).
  split; [exact Hl|]. split; [exact Hr|].
  exact (proj1 (otoshi_consttime_eq_reads_every_position
                  [x00; x62; x63] [x61; x62; x63] 3%nat Hl Hr)).
Defined.

(** ** The file hasher *)

Lemma sizeof_buffer_pos : (0 < FsScanner.sizeof_buffer)%nat.
Proof. unfold FsScanner.sizeof_buffer. lia. Qed.

Lemma buffer_init_length :
  length FsScanner.buffer_init = FsScanner.sizeof_buffer.
Proof. apply repeat_length. Qed.

Lemma firstn_add_skipn {A} (l : list A) a b :
  firstn (a + b) l = firstn a l ++ firstn b (skipn a l).
Proof.
  rewrite firstn_skipn_comm.
  rewrite <- (firstn_skipn a (firstn (a + b) l)) at 1.
  rewrite firstn_firstn. now replace (Nat.min a (a + b)) with a by lia.
Qed.

Lemma while_good_unfold s buffer hash :
  FsScanner.while_good s buffer hash
  = if FsScanner.good s then
      match FsScanner.while_body s buffer hash with
      | Some (s', buffer', hash') => FsScanner.while_good s' buffer' hash'
      | None => None
      end
    else Some hash.
Proof.
  funelim (FsScanner.while_good s buffer hash).
  - now rewrite e.
  - match goal with
    | Hg : FsScanner.good s = true,
      Hb : FsScanner.while_body s buffer hash = Some _ |- _ =>
        now rewrite Hg, Hb
    end.
  - match goal with
    | Hg : FsScanner.good s = true,
      Hb : FsScanner.while_body s buffer hash = None |- _ =>
        now rewrite Hg, Hb
    end.
Qed.

(** The inner loop hashes the bytes the read stored and none of the bytes
    left in the buffer behind them. *)
Lemma hash_for_delivered got buffer hash :
  (length got <= length buffer)%nat ->
  FsScanner.hash_for (got ++ skipn (length got) buffer) 0 (length got) hash
  = Some (Spec.fnv1a_from hash got).
Proof.
  intros Hlen. rewrite hash_for_fnv1a64_for, fnv1a64_for_fold.
  - cbn [skipn]. rewrite firstn_app, Nat.sub_diag, firstn_all.
    cbn [firstn]. now rewrite app_nil_r.
  - rewrite length_app. lia.
Qed.

Lemma read_keeps_buffer_length (got buffer : list byte) :
  (length got <= length buffer)%nat ->
  length (got ++ skipn (length got) buffer) = length buffer.
Proof. intros H. rewrite length_app, length_skipn. lia. Qed.

(** One turn of the read loop on a good stream whose device fails now. *)
Lemma while_body_fault s buffer hash :
  FsScanner.good s = true ->
  FsScanner.fault_in s = Some 0%nat ->
  exists s',
    FsScanner.while_body s buffer hash = Some (s', buffer, hash)
    /\ FsScanner.good s' = false.
Proof.
  intros Hg Hf. unfold FsScanner.while_body, FsScanner.istream_read.
  rewrite Hg, Hf. cbn. eexists. split; [reflexivity|].
  unfold FsScanner.good. cbn. now rewrite !orb_true_r.
Qed.

(** One turn of the read loop on a good stream whose device answers. *)
Lemma while_body_read s buffer hash :
  FsScanner.good s = true ->
  FsScanner.fault_in s <> Some 0%nat ->
  length buffer = FsScanner.sizeof_buffer ->
  exists s' buffer',
    FsScanner.while_body s buffer hash
    = Some (s', buffer',
            Spec.fnv1a_from hash
              (firstn FsScanner.sizeof_buffer (FsScanner.pending s)))
    /\ length buffer' = FsScanner.sizeof_buffer
    /\ FsScanner.pending s'
       = skipn FsScanner.sizeof_buffer (FsScanner.pending s)
    /\ FsScanner.fault_in s' = option_map Nat.pred (FsScanner.fault_in s)
    /\ FsScanner.good s'
       = (FsScanner.sizeof_buffer <=? length (FsScanner.pending s))%nat.
Proof.
  intros Hg Hf Hb. unfold FsScanner.while_body, FsScanner.istream_read.
  rewrite Hg. cbn [negb].
  pose proof sizeof_buffer_pos as Hpos.
  generalize dependent FsScanner.sizeof_buffer. intros B Hb Hpos.
  set (got := firstn B (FsScanner.pending s)).
  assert (Hgot : (length got <= length buffer)%nat)
    by (unfold got; rewrite length_firstn; lia).
  assert (Hflags : FsScanner.badbit s = false).
  { unfold FsScanner.good in Hg. destruct (FsScanner.badbit s); [|reflexivity].
    rewrite !orb_true_r in Hg. discriminate. }
  assert (Hshort : negb (length got <? B)%nat
                   = (B <=? length (FsScanner.pending s))%nat).
  { unfold got. rewrite length_firstn.
    destruct (Nat.ltb_spec (Nat.min B (length (FsScanner.pending s))) B),
      (Nat.leb_spec B (length (FsScanner.pending s))); cbn; try reflexivity; lia. }
  assert (Hstep :
    forall f', exists s' buffer',
      (let '(s0, buffer0) :=
         (FsScanner.mk_ifstream (FsScanner.is_open s)
            (skipn B (FsScanner.pending s)) f'
            (length got <? B)%nat (length got <? B)%nat
            (FsScanner.badbit s) (length got),
          got ++ skipn (length got) buffer) in
       match FsScanner.hash_for buffer0 0 (FsScanner.gcount s0) hash with
       | Some hash' => Some (s0, buffer0, hash')
       | None => None
       end)
      = Some (s', buffer', Spec.fnv1a_from hash got)
      /\ length buffer' = B
      /\ FsScanner.pending s' = skipn B (FsScanner.pending s)
      /\ FsScanner.fault_in s' = f'
      /\ FsScanner.good s' = (B <=? length (FsScanner.pending s))%nat).
  { intros f'. cbn [FsScanner.gcount].
    rewrite hash_for_delivered by exact Hgot.
    do 2 eexists. split; [reflexivity|].
    split; [rewrite read_keeps_buffer_length; assumption|].
    split; [reflexivity|]. split; [reflexivity|].
    unfold FsScanner.good. cbn [FsScanner.eofbit FsScanner.failbit FsScanner.badbit].
    rewrite Hflags, orb_false_r, orb_diag. exact Hshort. }
  destruct (FsScanner.fault_in s) as [[|k]|]; [congruence | |]; apply Hstep.
Qed.

Lemma while_good_not_good s buffer hash :
  FsScanner.good s = false -> FsScanner.while_good s buffer hash = Some hash.
Proof. intros H. now rewrite while_good_unfold, H. Qed.

(** The read loop returns, and what it returns is the FNV-1a fold over the
    bytes the stream delivers. *)
Lemma while_good_delivers n :
  forall s buffer hash,
    (length (FsScanner.pending s) <= n)%nat ->
    FsScanner.good s = true ->
    length buffer = FsScanner.sizeof_buffer ->
    FsScanner.while_good s buffer hash
    = Some (Spec.fnv1a_from hash
              (stream_delivers (FsScanner.pending s) (FsScanner.fault_in s))).
Proof.
  pose proof sizeof_buffer_pos as Hpos.
  induction n as [n IH] using lt_wf_ind.
  intros s buffer hash Hn Hg Hb.
  rewrite while_good_unfold, Hg.
  assert (Hdec : FsScanner.fault_in s = Some 0%nat
                 \/ FsScanner.fault_in s <> Some 0%nat)
    by (destruct (FsScanner.fault_in s) as [[|k]|];
        [left; reflexivity | right; discriminate | right; discriminate]).
  destruct Hdec as [Hf|Hf].
  - destruct (while_body_fault s buffer hash Hg Hf) as (s' & -> & Hg').
    rewrite while_good_not_good by exact Hg'.
    rewrite Hf. reflexivity.
  - destruct (while_body_read s buffer hash Hg Hf Hb)
      as (s' & buffer' & -> & Hb' & Hp' & Hf' & Hg').
    set (B := FsScanner.sizeof_buffer) in *.
    destruct (Nat.leb_spec B (length (FsScanner.pending s))) as [Hfull|Hshort].
    + rewrite (IH (length (FsScanner.pending s'))) ; try assumption; try lia.
      * f_equal. rewrite <- fnv1a_from_app. f_equal.
        rewrite Hp', Hf'.
        destruct (FsScanner.fault_in s) as [[|k]|]; [congruence| |];
          unfold stream_delivers; cbn [option_map Nat.pred]; fold B.
        -- rewrite Nat.mul_succ_l, (Nat.add_comm (k * B) B).
           symmetry. apply firstn_add_skipn.
        -- apply firstn_skipn.
      * rewrite Hp', length_skipn. lia.
    + rewrite while_good_not_good by exact Hg'.
      f_equal. f_equal.
      rewrite firstn_all2 by lia.
      destruct (FsScanner.fault_in s) as [[|k]|]; [congruence| |];
        unfold stream_delivers; fold B.
      * rewrite Nat.mul_succ_l, firstn_all2; [reflexivity|]. lia.
      * reflexivity.
Qed.

(** [fnv1a64_file] always returns, and its value is [file_digest]: no read
    of [buffer] leaves the array, and bytes left in [buffer] by an earlier
    read are never hashed. *)
Lemma fnv1a64_file_digest fsys file_path :
  FsScanner.fnv1a64_file fsys file_path = Some (file_digest fsys file_path).
Proof.
  unfold FsScanner.fnv1a64_file, file_digest.
  destruct (FsScanner.fs_open fsys file_path) as [f|]; cbn [FsScanner.ifstream_open].
  - cbn [FsScanner.is_open negb].
    erewrite while_good_delivers;
      [reflexivity | apply Nat.le_refl | reflexivity | apply buffer_init_length].
  - reflexivity.
Qed.

(** C3, as the code has it.  If the file can be opened and no read fails,
    [fnv1a64_file] returns the digest [otoshi_fnv1a64] returns on the whole
    content of the file; if read number [k] fails, it returns the digest of
    the bytes delivered by the [k] reads of [sizeof(buffer)] bytes before it; if the file cannot be opened, it
    returns the offset basis.  In every case it returns. *)
Theorem fnv1a64_file_refines_one_shot :
  forall (fsys : FsScanner.filesystem) (file_path : string),
    (forall f,
        FsScanner.fs_open fsys file_path = Some f ->
        FsScanner.read_fault f = None ->
        FsScanner.fnv1a64_file fsys file_path
        = CryptoHelper.otoshi_fnv1a64 (Some (FsScanner.file_bytes f))
            (length (FsScanner.file_bytes f)))
    /\ (forall f k,
           FsScanner.fs_open fsys file_path = Some f ->
           FsScanner.read_fault f = Some k ->
           FsScanner.fnv1a64_file fsys file_path
           = CryptoHelper.otoshi_fnv1a64
               (Some (firstn (k * FsScanner.sizeof_buffer)
                        (FsScanner.file_bytes f)))
               (length (firstn (k * FsScanner.sizeof_buffer)
                          (FsScanner.file_bytes f))))
    /\ (FsScanner.fs_open fsys file_path = None ->
        FsScanner.fnv1a64_file fsys file_path = Some 1469598103934665603)
    /\ exists digest, FsScanner.fnv1a64_file fsys file_path = Some digest.
Proof.
  intros fsys file_path.
  rewrite fnv1a64_file_digest. unfold file_digest, delivered_bytes.
  split; [|split; [|split]].
  - intros f -> Hf. rewrite Hf, otoshi_fnv1a64_whole. reflexivity.
  - intros f k -> Hf. rewrite Hf, otoshi_fnv1a64_whole.
    reflexivity.
  - intros ->. reflexivity.
  - eauto.
Qed.

Lemma fnv1a64_file_refines_one_shot_witness :
  FsScanner.fs_open Examples.fs_small "d/a"
  = Some (FsScanner.mk_file [x61; x62; x63] None)
  /\ FsScanner.fnv1a64_file Examples.fs_small "d/a"
     = CryptoHelper.otoshi_fnv1a64 (Some [x61; x62; x63]) 3.
Proof.
  split; [reflexivity|].
  exact (proj1 (fnv1a64_file_refines_one_shot Examples.fs_small "d/a")
           (FsScanner.mk_file [x61; x62; x63] None) eq_refl eq_refl).
Defined.

Example fnv1a64_file_three_reads :
  FsScanner.fnv1a64_file Examples.fs_large "large"
  = CryptoHelper.otoshi_fnv1a64 (Some Examples.bytes_20000) (Z.to_nat 20000).
Proof. vm_compute. reflexivity. Qed.

Example fnv1a64_file_full_buffer :
  FsScanner.fnv1a64_file Examples.fs_large "full"
  = CryptoHelper.otoshi_fnv1a64 (Some Examples.bytes_8192) (Z.to_nat 8192).
Proof. vm_compute. reflexivity. Qed.

Example fnv1a64_file_second_read_fails :
  FsScanner.fnv1a64_file Examples.fs_large "broken"
  = CryptoHelper.otoshi_fnv1a64 (Some Examples.bytes_20000) (Z.to_nat 8192).
Proof. vm_compute. reflexivity. Qed.

(** C3, as stated, fails: a file that can be opened but whose first read
    fails is hashed to the offset basis, not to the digest of its content. *)
Lemma fnv1a64_file_partial_on_read_error :
  FsScanner.fs_open Examples.fs_faulty "f"
  = Some (FsScanner.mk_file [x61; x62; x63] (Some 0%nat))
  /\ FsScanner.fnv1a64_file Examples.fs_faulty "f" = Some 1469598103934665603
  /\ FsScanner.fnv1a64_file Examples.fs_faulty "f"
     <> CryptoHelper.otoshi_fnv1a64 (Some [x61; x62; x63]) 3.
Proof.
  split; [reflexivity|]. split; [now vm_compute|].
  vm_compute. discriminate.
Qed.

(** ** The directory aggregator *)

Lemma scan_body_visit fsys st entry regular :
  FsScanner.is_regular_file entry = FsScanner.Returns regular ->
  FsScanner.scan_body fsys st entry
  = Some (FsScanner.Returns (if visited entry then visit fsys st entry else st)).
Proof.
  intros Hreg. unfold FsScanner.scan_body, visited, visit, size_of. rewrite Hreg.
  destruct regular; cbn [negb andb]; [|reflexivity].
  destruct (FsScanner.file_size entry) as [size|]; [|reflexivity].
  rewrite fnv1a64_file_digest. reflexivity.
Qed.

Lemma scan_body_throws fsys st entry :
  FsScanner.is_regular_file entry = FsScanner.Throws ->
  FsScanner.scan_body fsys st entry = Some FsScanner.Throws.
Proof. intros H. unfold FsScanner.scan_body. now rewrite H. Qed.

(** When no [is_regular_file] throws, the loop of [main] runs through the
    entries: it is the fold of [visit] over the entries that are not
    skipped. *)
Lemma scan_for_fold fsys entries :
  entries_return entries = true ->
  forall st,
    FsScanner.scan_for fsys entries st
    = Some (FsScanner.Returns
              (fold_left (visit fsys) (visited_entries entries) st)).
Proof.
  induction entries as [|e es IH]; intros Hret st; cbn [FsScanner.scan_for].
  - reflexivity.
  - cbn [entries_return forallb] in Hret.
    apply andb_true_iff in Hret as [He Hes].
    destruct (FsScanner.is_regular_file e) as [regular|] eqn:Hreg;
      [|discriminate].
    rewrite (scan_body_visit _ _ _ _ Hreg). unfold visited_entries. cbn [filter].
    destruct (visited e); cbn [fold_left]; now apply IH.
Qed.

(** When an [is_regular_file] throws, the loop is left by the exception. *)
Lemma scan_for_throws fsys entries :
  entries_return entries = false ->
  forall st, FsScanner.scan_for fsys entries st = Some FsScanner.Throws.
Proof.
  induction entries as [|e es IH]; intros Hret st; cbn [FsScanner.scan_for].
  - discriminate.
  - cbn [entries_return forallb] in Hret.
    destruct (FsScanner.is_regular_file e) as [regular|] eqn:Hreg.
    + rewrite (scan_body_visit _ _ _ _ Hreg). now apply IH.
    + now rewrite scan_body_throws.
Qed.

(** A skipped entry leaves no mark on the state, wherever it stands. *)
Lemma scan_for_skips fsys before entry after st regular :
  FsScanner.is_regular_file entry = FsScanner.Returns regular ->
  visited entry = false ->
  FsScanner.scan_for fsys (before ++ entry :: after) st
  = FsScanner.scan_for fsys (before ++ after) st.
Proof.
  intros Hreg Hvis. revert st.
  induction before as [|b before IH]; intros st; cbn [app FsScanner.scan_for].
  - now rewrite (scan_body_visit _ _ _ _ Hreg), Hvis.
  - destruct (FsScanner.scan_body fsys st b) as [[st'|]|];
      [apply IH | reflexivity | reflexivity].
Qed.

Lemma wrap64_idem z : wrap64 (wrap64 z) = wrap64 z.
Proof. unfold wrap64. apply Z.mod_mod. lia. Qed.

Lemma wrap64_add_l a b : wrap64 (wrap64 a + b) = wrap64 (a + b).
Proof. unfold wrap64. apply Zplus_mod_idemp_l. Qed.

Lemma wrap64_add_r a b : wrap64 (a + wrap64 b) = wrap64 (a + b).
Proof. unfold wrap64. apply Zplus_mod_idemp_r. Qed.

Lemma wrap64_add_mid a b c : wrap64 (a + wrap64 b + c) = wrap64 (a + b + c).
Proof.
  replace (a + wrap64 b + c) with (wrap64 b + (a + c)) by lia.
  rewrite wrap64_add_l. f_equal. lia.
Qed.

Lemma fold_visit_counts fsys entries :
  forall st,
    wrap64 (FsScanner.file_count st) = FsScanner.file_count st ->
    wrap64 (FsScanner.total_bytes st) = FsScanner.total_bytes st ->
    FsScanner.file_count (fold_left (visit fsys) entries st)
    = wrap64 (FsScanner.file_count st + Z.of_nat (length entries))
    /\ FsScanner.total_bytes (fold_left (visit fsys) entries st)
       = wrap64 (FsScanner.total_bytes st + sum_sizes entries)
    /\ FsScanner.aggregate (fold_left (visit fsys) entries st)
       = fold_left Spec.fold_step
           (map (fun e => file_digest fsys (FsScanner.path e)) entries)
           (FsScanner.aggregate st).
Proof.
  induction entries as [|e es IH]; intros st Hc Hb.
  - cbn [fold_left length map]. unfold sum_sizes. cbn [map fold_right].
    rewrite !Z.add_0_r. auto.
  - cbn [fold_left map].
    destruct (IH (visit fsys st e)) as (Hc' & Hb' & Ha');
      [apply wrap64_idem | apply wrap64_idem |].
    rewrite Hc', Hb', Ha'. clear IH Hc' Hb' Ha'.
    split; [|split]; [| |reflexivity].
    + cbn [visit FsScanner.file_count].
      rewrite wrap64_add_l. f_equal. cbn [length]. lia.
    + unfold sum_sizes. cbn [map fold_right visit FsScanner.total_bytes].
      rewrite wrap64_add_l, wrap64_add_mid. f_equal. lia.
Qed.

Lemma sum_sizes_nonneg entries : 0 <= sum_sizes entries.
Proof.
  unfold sum_sizes. induction entries as [|e es IH]; cbn [map fold_right].
  - lia.
  - assert (0 <= size_of e) by (unfold size_of; destruct (FsScanner.file_size e); lia).
    lia.
Qed.

Lemma traversal_returns_true range :
  traversal_returns range = true ->
  FsScanner.reaches_end range = true
  /\ entries_return (FsScanner.yielded range) = true.
Proof. unfold traversal_returns. apply andb_true_iff. Qed.

(** The state [main] ends its traversal with, when the traversal runs to
    its end. *)
Lemma scan_summary fsys root :
  traversal_returns (FsScanner.recursive_directory_iterator fsys root) = true ->
  FsScanner.scan fsys root
  = Some (FsScanner.Returns (FsScanner.mk_scan
            (wrap64 (Z.of_nat (length (visited_entries
               (FsScanner.yielded
                  (FsScanner.recursive_directory_iterator fsys root))))))
            (wrap64 (sum_sizes (visited_entries
               (FsScanner.yielded
                  (FsScanner.recursive_directory_iterator fsys root)))))
            (fold_left Spec.fold_step
               (map (fun e => file_digest fsys (FsScanner.path e))
                  (visited_entries
                     (FsScanner.yielded
                        (FsScanner.recursive_directory_iterator fsys root))))
               1469598103934665603))).
Proof.
  intros Hret. apply traversal_returns_true in Hret as [Hend Hret].
  unfold FsScanner.scan. rewrite scan_for_fold by exact Hret. rewrite Hend.
  set (vis := visited_entries _).
  destruct (fold_visit_counts fsys vis FsScanner.scan_init) as (Hc & Hb & Ha);
    [reflexivity | reflexivity |].
  destruct (fold_left (visit fsys) vis FsScanner.scan_init) as [c b a].
  cbn [FsScanner.file_count FsScanner.total_bytes FsScanner.aggregate] in *.
  subst c b a. reflexivity.
Qed.

(** The traversal of [main] is left by an exception as soon as a call
    throws. *)
Lemma scan_throws fsys root :
  traversal_returns (FsScanner.recursive_directory_iterator fsys root) = false ->
  FsScanner.scan fsys root = Some FsScanner.Throws.
Proof.
  intros Hret. unfold traversal_returns in Hret. unfold FsScanner.scan.
  destruct (entries_return
              (FsScanner.yielded
                 (FsScanner.recursive_directory_iterator fsys root))) eqn:He.
  - rewrite scan_for_fold by exact He.
    rewrite andb_true_r in Hret. now rewrite Hret.
  - now rewrite scan_for_throws.
Qed.

Lemma file_digests_of fsys entries :
  map (fun e => FsScanner.fnv1a64_file fsys (FsScanner.path e)) entries
  = map Some (map (fun e => file_digest fsys (FsScanner.path e)) entries).
Proof.
  rewrite map_map. apply map_ext. intros e. apply fnv1a64_file_digest.
Qed.

(** C4. When the traversal of [main] runs to its end, its aggregate is the
    left fold of [aggregate = (aggregate XOR file_digest) * prime] (modulo
    [2^64]) over the digests [fnv1a64_file] gives for the visited regular
    files, in the order of the traversal, started from the offset basis;
    when no file is visited (an empty directory), the file count is 0, the
    byte count is 0 and the aggregate is the offset basis
    1469598103934665603.  A traversal in which a call throws leaves no
    aggregate: the exception ends it. *)
Theorem scan_aggregate_is_fold :
  forall (fsys : FsScanner.filesystem) (root : string),
    (traversal_returns (FsScanner.recursive_directory_iterator fsys root) = true ->
     exists st digests,
       FsScanner.scan fsys root = Some (FsScanner.Returns st)
       /\ map (fun e => FsScanner.fnv1a64_file fsys (FsScanner.path e))
            (visited_entries
               (FsScanner.yielded
                  (FsScanner.recursive_directory_iterator fsys root)))
          = map Some digests
       /\ FsScanner.aggregate st
          = fold_left
              (fun aggregate file_digest =>
                 (Z.lxor aggregate file_digest * 1099511628211) mod 2 ^ 64)
              digests 1469598103934665603
       /\ (visited_entries
             (FsScanner.yielded
                (FsScanner.recursive_directory_iterator fsys root)) = [] ->
           FsScanner.file_count st = 0
           /\ FsScanner.total_bytes st = 0
           /\ FsScanner.aggregate st = 1469598103934665603))
    /\ (traversal_returns (FsScanner.recursive_directory_iterator fsys root)
        = false ->
        FsScanner.scan fsys root = Some FsScanner.Throws).
Proof.
  intros fsys root. split.
  - intros Hret. rewrite scan_summary by exact Hret.
    do 2 eexists. split; [reflexivity|].
    split; [apply file_digests_of|].
    split; [reflexivity|].
    intros ->. cbn. auto.
  - apply scan_throws.
Qed.

Lemma scan_aggregate_is_fold_witness :
  traversal_returns
    (FsScanner.recursive_directory_iterator Examples.fs_backslash "C:\Games")
  = true
  /\ visited_entries
       (FsScanner.yielded
          (FsScanner.recursive_directory_iterator Examples.fs_backslash
             "C:\Games")) = []
  /\ FsScanner.scan Examples.fs_backslash "C:\Games"
     = Some (FsScanner.Returns (FsScanner.mk_scan 0 0 1469598103934665603))
  /\ traversal_returns
       (FsScanner.recursive_directory_iterator Examples.fs_errors "d") = false
  /\ FsScanner.scan Examples.fs_errors "d" = Some FsScanner.Throws.
Proof.
  split; [reflexivity|]. split; [reflexivity|]. split.
  - destruct (proj1 (scan_aggregate_is_fold Examples.fs_backslash "C:\Games")
                eq_refl)
      as (st & digests & Hscan & _ & _ & Hempty).
    destruct (Hempty eq_refl) as (Hc & Hb & Ha).
    rewrite Hscan. destruct st as [c b a]. cbn in Hc, Hb, Ha.
    now subst.
  - split; [reflexivity|].
    exact (proj2 (scan_aggregate_is_fold Examples.fs_errors "d") eq_refl).
Defined.

(** C7, as the code has it.  When the traversal runs to its end and the
    number of visited regular files and the sum of their sizes are below
    [2^64], it ends with a file count equal to that number and a byte count
    equal to that sum, where the visited files are the entries that are
    regular files and whose size was obtained; an entry that is not a
    regular file or whose size cannot be determined changes neither (it is
    left out, not counted with size 0). *)
Theorem scan_counts_visited_files :
  forall (fsys : FsScanner.filesystem) (root : string),
    traversal_returns (FsScanner.recursive_directory_iterator fsys root) = true ->
    Z.of_nat (length (visited_entries
       (FsScanner.yielded (FsScanner.recursive_directory_iterator fsys root))))
    < 2 ^ 64 ->
    sum_sizes (visited_entries
       (FsScanner.yielded (FsScanner.recursive_directory_iterator fsys root)))
    < 2 ^ 64 ->
    (exists st,
        FsScanner.scan fsys root = Some (FsScanner.Returns st)
        /\ FsScanner.file_count st
           = Z.of_nat (length (visited_entries
               (FsScanner.yielded
                  (FsScanner.recursive_directory_iterator fsys root))))
        /\ FsScanner.total_bytes st
           = sum_sizes (visited_entries
               (FsScanner.yielded
                  (FsScanner.recursive_directory_iterator fsys root))))
    /\ (forall before entry after,
           FsScanner.yielded (FsScanner.recursive_directory_iterator fsys root)
           = before ++ entry :: after ->
           FsScanner.is_regular_file entry = FsScanner.Returns false
           \/ FsScanner.file_size entry = None ->
           FsScanner.scan fsys root
           = FsScanner.scan_for fsys (before ++ after) FsScanner.scan_init).
Proof.
  intros fsys root Hret Hcount Hsum. split.
  - rewrite scan_summary by exact Hret. eexists. split; [reflexivity|].
    cbn [FsScanner.file_count FsScanner.total_bytes]. unfold wrap64.
    pose proof (sum_sizes_nonneg (visited_entries
      (FsScanner.yielded (FsScanner.recursive_directory_iterator fsys root)))).
    rewrite !Z.mod_small by lia. auto.
  - intros before entry after Hentries Hskip.
    apply traversal_returns_true in Hret as [Hend Hret].
    assert (Hall : entries_return (before ++ entry :: after) = true)
      by (now rewrite <- Hentries).
    assert (Hentry : exists regular,
               FsScanner.is_regular_file entry = FsScanner.Returns regular).
    { unfold entries_return in Hall. rewrite forallb_app in Hall.
      apply andb_true_iff in Hall as [_ Hall]. cbn [forallb] in Hall.
      destruct (FsScanner.is_regular_file entry) as [regular|];
        [eauto | discriminate]. }
    destruct Hentry as [regular Hreg].
    assert (Hvis : visited entry = false).
    { unfold visited. rewrite Hreg. destruct Hskip as [H | ->].
      - rewrite Hreg in H. now inversion H.
      - apply andb_false_r. }
    assert (Hrest : entries_return (before ++ after) = true).
    { unfold entries_return in *. rewrite forallb_app in *.
      apply andb_true_iff in Hall as [Hb Ha]. cbn [forallb] in Ha.
      apply andb_true_iff in Ha as [_ Ha]. now rewrite Hb, Ha. }
    unfold FsScanner.scan. rewrite Hentries, Hend.
    rewrite (scan_for_skips _ _ _ _ _ _ Hreg Hvis).
    now rewrite scan_for_fold by exact Hrest.
Qed.

Lemma scan_counts_visited_files_witness :
  exists st,
    FsScanner.scan Examples.fs_small "d" = Some (FsScanner.Returns st)
    /\ FsScanner.file_count st = 1
    /\ FsScanner.total_bytes st = 3.
Proof.
  assert (Hret : traversal_returns
            (FsScanner.recursive_directory_iterator Examples.fs_small "d")
          = true) by reflexivity.
  assert (Hcount : Z.of_nat (length (visited_entries
            (FsScanner.yielded
               (FsScanner.recursive_directory_iterator Examples.fs_small "d"))))
          < 2 ^ 64) by (vm_compute; reflexivity).
  assert (Hsum : sum_sizes (visited_entries
            (FsScanner.yielded
               (FsScanner.recursive_directory_iterator Examples.fs_small "d")))
          < 2 ^ 64) by (vm_compute; reflexivity).
  exact (proj1 (scan_counts_visited_files Examples.fs_small "d"
                  Hret Hcount Hsum)).
Defined.

(** C7, as stated, fails: three sparse regular files of [2^63 - 1] bytes
    each are all visited, the sum of their sizes is 27670116110564327421,
    and the byte count the traversal ends with is 9223372036854775805. *)
Lemma total_bytes_differs_from_sum_of_sizes :
  exists st,
    FsScanner.scan Examples.fs_sparse "d" = Some (FsScanner.Returns st)
    /\ FsScanner.file_count st = 3
    /\ sum_sizes (visited_entries
         (FsScanner.yielded
            (FsScanner.recursive_directory_iterator Examples.fs_sparse "d")))
       = 27670116110564327421
    /\ FsScanner.total_bytes st = 9223372036854775805
    /\ FsScanner.total_bytes st
       <> sum_sizes (visited_entries
            (FsScanner.yielded
               (FsScanner.recursive_directory_iterator Examples.fs_sparse "d"))).
Proof.
  eexists. split; [vm_compute; reflexivity|].
  repeat split; try (vm_compute; reflexivity).
  vm_compute. discriminate.
Qed.

(** ** [main]: exit codes and streams *)

Lemma main_usage fsys argv :
  (length argv < 2)%nat ->
  FsScanner.main fsys argv
  = Some (FsScanner.Returns
            (FsScanner.mk_process 1 EmptyString
               ("usage: otoshi_fs_scanner <root-dir>" ++ FsScanner.newline)%string)).
Proof.
  intros H. unfold FsScanner.main.
  destruct (Nat.ltb_spec (length argv) 2); [reflexivity | lia].
Qed.

Lemma main_invalid_root fsys prog root rest :
  FsScanner.fs_exists fsys root = FsScanner.Returns false
  \/ (FsScanner.fs_exists fsys root = FsScanner.Returns true
      /\ FsScanner.fs_is_directory fsys root = FsScanner.Returns false) ->
  FsScanner.main fsys (prog :: root :: rest)
  = Some (FsScanner.Returns
            (FsScanner.mk_process 1 EmptyString
               ("invalid root: " ++ root ++ FsScanner.newline)%string)).
Proof.
  intros H. unfold FsScanner.main. cbn [length Nat.ltb Nat.leb nth].
  destruct H as [-> | [-> ->]]; reflexivity.
Qed.

Lemma main_success fsys prog root rest st :
  FsScanner.fs_exists fsys root = FsScanner.Returns true ->
  FsScanner.fs_is_directory fsys root = FsScanner.Returns true ->
  FsScanner.scan fsys root = Some (FsScanner.Returns st) ->
  FsScanner.main fsys (prog :: root :: rest)
  = Some (FsScanner.Returns
            (FsScanner.mk_process 0
               (FsScanner.render root st ++ FsScanner.newline)%string
               EmptyString)).
Proof.
  intros He Hd Hs. unfold FsScanner.main. cbn [length Nat.ltb Nat.leb nth].
  rewrite He, Hd, Hs. reflexivity.
Qed.

(** An exception thrown by a query on the root or during the traversal
    leaves [main]. *)
Lemma main_throws fsys prog root rest :
  FsScanner.fs_exists fsys root = FsScanner.Throws
  \/ (FsScanner.fs_exists fsys root = FsScanner.Returns true
      /\ FsScanner.fs_is_directory fsys root = FsScanner.Throws)
  \/ (FsScanner.fs_exists fsys root = FsScanner.Returns true
      /\ FsScanner.fs_is_directory fsys root = FsScanner.Returns true
      /\ traversal_returns (FsScanner.recursive_directory_iterator fsys root)
         = false) ->
  FsScanner.main fsys (prog :: root :: rest) = Some FsScanner.Throws.
Proof.
  intros H. unfold FsScanner.main. cbn [length Nat.ltb Nat.leb nth].
  destruct H as [-> | [[-> ->] | (-> & -> & H)]]; try reflexivity.
  cbn [negb]. now rewrite scan_throws.
Qed.

Example main_small_directory :
  FsScanner.main Examples.fs_small ["otoshi_fs_scanner"; "d"]%string
  = Some (FsScanner.Returns
            (FsScanner.mk_process 0
               ("{" ++ FsScanner.quote ++ "root" ++ FsScanner.quote ++ ":"
                ++ FsScanner.quote ++ "d" ++ FsScanner.quote ++ ","
                ++ FsScanner.quote ++ "file_count" ++ FsScanner.quote ++ ":1,"
                ++ FsScanner.quote ++ "total_bytes" ++ FsScanner.quote ++ ":3,"
                ++ FsScanner.quote ++ "aggregate_hash" ++ FsScanner.quote ++ ":"
                ++ FsScanner.quote ++ "0x8acdc72959ea9d1a" ++ FsScanner.quote
                ++ "}" ++ FsScanner.newline)%string
               EmptyString)).
Proof. vm_compute. reflexivity. Qed.

(** What [main] does whenever the queries on the root return: exit code 1,
    a message on the error stream and nothing on the output stream for a
    missing argument and for a root reported as nonexistent or as no
    directory; exit code 0, one line on the output stream and nothing on
    the error stream when the root is a directory and the traversal runs to
    its end. *)
Lemma main_exit_codes_when_calls_return fsys :
  (forall argv,
      (length argv < 2)%nat ->
      exists message,
        message <> EmptyString
        /\ FsScanner.main fsys argv
           = Some (FsScanner.Returns
                     (FsScanner.mk_process 1 EmptyString message)))
  /\ (forall prog root rest,
         FsScanner.fs_exists fsys root = FsScanner.Returns false
         \/ (FsScanner.fs_exists fsys root = FsScanner.Returns true
             /\ FsScanner.fs_is_directory fsys root = FsScanner.Returns false) ->
         exists message,
           message <> EmptyString
           /\ FsScanner.main fsys (prog :: root :: rest)
              = Some (FsScanner.Returns
                        (FsScanner.mk_process 1 EmptyString message)))
  /\ (forall prog root rest,
         FsScanner.fs_exists fsys root = FsScanner.Returns true ->
         FsScanner.fs_is_directory fsys root = FsScanner.Returns true ->
         traversal_returns (FsScanner.recursive_directory_iterator fsys root)
         = true ->
         exists st,
           FsScanner.scan fsys root = Some (FsScanner.Returns st)
           /\ FsScanner.main fsys (prog :: root :: rest)
              = Some (FsScanner.Returns
                        (FsScanner.mk_process 0
                           (FsScanner.render root st ++ FsScanner.newline)%string
                           EmptyString))).
Proof.
  split; [|split].
  - intros argv H. eexists. split; [|now apply main_usage]. discriminate.
  - intros prog root rest H. eexists.
    split; [|now apply main_invalid_root]. discriminate.
  - intros prog root rest He Hd Hret.
    eexists. split; [now apply scan_summary|].
    apply main_success; [assumption | assumption | now apply scan_summary].
Qed.

(** C9 at a root whose name is too long.  For a root of 300 letters, which
    names nothing, [fs::exists] does not return [false]: it throws, [main]
    has no handler, and the process is ended by the exception instead of
    printing the message for an invalid root and returning 1.  The same
    happens when [is_regular_file] throws on an entry of a valid root: no
    exit code 0 and no output. *)
Theorem main_aborts_when_a_query_throws :
  String.length Examples.long_root = 300%nat
  /\ FsScanner.fs_exists Examples.fs_errors Examples.long_root = FsScanner.Throws
  /\ FsScanner.main Examples.fs_errors
       ["otoshi_fs_scanner"%string; Examples.long_root]
     = Some FsScanner.Throws
  /\ FsScanner.main Examples.fs_errors
       ["otoshi_fs_scanner"%string; Examples.long_root]
     <> Some (FsScanner.Returns
               (FsScanner.invalid_root Examples.long_root))
  /\ FsScanner.fs_exists Examples.fs_errors "d" = FsScanner.Returns true
  /\ FsScanner.fs_is_directory Examples.fs_errors "d" = FsScanner.Returns true
  /\ FsScanner.main Examples.fs_errors ["otoshi_fs_scanner"%string; "d"%string]
     = Some FsScanner.Throws.
Proof.
  assert (Hmain : FsScanner.main Examples.fs_errors
                    ["otoshi_fs_scanner"%string; Examples.long_root]
                  = Some FsScanner.Throws) by (vm_compute; reflexivity).
  split; [vm_compute; reflexivity|]. split; [vm_compute; reflexivity|].
  split; [exact Hmain|]. split; [rewrite Hmain; discriminate|].
  split; [reflexivity|]. split; [reflexivity|].
  apply main_throws. right. right. repeat split.
Qed.

(** ** The text [main] prints *)

Lemma digit_cases d : 0 <= d < 16 ->
  d = 0 \/ d = 1 \/ d = 2 \/ d = 3 \/ d = 4 \/ d = 5 \/ d = 6 \/ d = 7 \/
  d = 8 \/ d = 9 \/ d = 10 \/ d = 11 \/ d = 12 \/ d = 13 \/ d = 14 \/ d = 15.
Proof. lia. Qed.

Lemma digit_char_lower_hex d :
  0 <= d < 16 -> is_lower_hex (FsScanner.digit_char d) = true.
Proof.
  intros H. apply digit_cases in H.
  repeat (destruct H as [-> | H]; [reflexivity|]). now subst.
Qed.

Lemma digit_char_decimal d :
  0 <= d < 10 -> Json.is_digit (FsScanner.digit_char d) = true.
Proof.
  intros H. assert (H' : 0 <= d < 16) by lia. apply digit_cases in H'.
  repeat (destruct H' as [-> | H']; [try reflexivity; lia|]). lia.
Qed.

Lemma digit_char_nonzero d :
  1 <= d < 10 -> Ascii.eqb (FsScanner.digit_char d) "0" = false.
Proof.
  intros H. assert (H' : 0 <= d < 16) by lia. apply digit_cases in H'.
  repeat (destruct H' as [-> | H']; [try reflexivity; lia|]). lia.
Qed.

Lemma string_forall_app f a b :
  string_forall f (a ++ b)%string = string_forall f a && string_forall f b.
Proof.
  induction a as [|c a IH]; cbn; [reflexivity|].
  now rewrite IH, andb_assoc.
Qed.

Lemma string_length_app a b :
  String.length (a ++ b)%string = (String.length a + String.length b)%nat.
Proof. induction a as [|c a IH]; cbn; [reflexivity | now rewrite IH]. Qed.

Lemma fill_length n c : String.length (FsScanner.fill n c) = n.
Proof. induction n as [|n IH]; cbn; [reflexivity | now rewrite IH]. Qed.

Lemma fill_forall f n c : f c = true -> string_forall f (FsScanner.fill n c) = true.
Proof. intros H. induction n as [|n IH]; cbn; [reflexivity | now rewrite H, IH]. Qed.

(** Every character [operator<<] prints for a number is a digit of the base. *)
Lemma put_digits_forall f base fuel :
  0 < base ->
  (forall d, 0 <= d < base -> f (FsScanner.digit_char d) = true) ->
  forall z acc,
    string_forall f acc = true ->
    string_forall f (FsScanner.put_digits base fuel z acc) = true.
Proof.
  intros Hbase Hf. induction fuel as [|fuel IH]; intros z acc Hacc;
    cbn [FsScanner.put_digits]; [exact Hacc|].
  assert (Hacc' : string_forall f
            (String (FsScanner.digit_char (z mod base)) acc) = true).
  { cbn. rewrite Hacc, Hf; [reflexivity|]. apply Z.mod_pos_bound. exact Hbase. }
  destruct (z / base =? 0); [exact Hacc' | now apply IH].
Qed.

(** A number below [base ^ k] is printed with at least one and at most [k]
    digits. *)
Lemma put_digits_length base fuel :
  1 < base ->
  forall (k : nat) z acc,
    (1 <= k <= fuel)%nat ->
    0 <= z < base ^ Z.of_nat k ->
    (String.length acc + 1
     <= String.length (FsScanner.put_digits base fuel z acc)
     <= String.length acc + k)%nat.
Proof.
  intros Hbase. induction fuel as [|fuel IH]; intros k z acc Hk Hz; [lia|].
  cbn [FsScanner.put_digits].
  destruct (Z.eqb_spec (z / base) 0) as [Hq|Hq].
  - cbn [String.length]. lia.
  - assert (Hq' : 0 < z / base).
    { assert (0 <= z / base) by (apply Z.div_pos; lia). lia. }
    assert (Hzb : base <= z).
    { destruct (Z.lt_ge_cases z base) as [Hlt|Hge]; [|exact Hge].
      rewrite Z.div_small in Hq' by lia. lia. }
    destruct k as [|[|k]]; [lia | |].
    + change (Z.of_nat 1) with 1 in Hz. rewrite Z.pow_1_r in Hz. lia.
    + assert (Hdiv : 0 <= z / base < base ^ Z.of_nat (S k)).
      { split; [lia|]. apply Z.div_lt_upper_bound; [lia|].
        rewrite <- Z.pow_succ_r by lia.
        replace (Z.succ (Z.of_nat (S k))) with (Z.of_nat (S (S k))) by lia.
        lia. }
      specialize (IH (S k) (z / base)
                    (String (FsScanner.digit_char (z mod base)) acc)
                    ltac:(lia) Hdiv).
      cbn [String.length] in IH. lia.
Qed.

(** The field [aggregate_hash]: sixteen lowercase hexadecimal digits for
    every 64-bit value. *)
Lemma aggregate_hash_format z :
  0 <= z < 2 ^ 64 ->
  String.length (FsScanner.setw_setfill 16 "0" (FsScanner.put_hex z)) = 16%nat
  /\ string_forall is_lower_hex
       (FsScanner.setw_setfill 16 "0" (FsScanner.put_hex z)) = true.
Proof.
  intros Hz. unfold FsScanner.setw_setfill, FsScanner.put_hex.
  pose proof (put_digits_length 16 64 ltac:(lia) 16 z EmptyString
                ltac:(lia) ltac:(change (16 ^ Z.of_nat 16) with (2 ^ 64); lia))
    as Hlen.
  cbn [String.length] in Hlen. split.
  - rewrite string_length_app, fill_length. lia.
  - rewrite string_forall_app, fill_forall by reflexivity.
    apply put_digits_forall; [lia | | reflexivity].
    intros d Hd. now apply digit_char_lower_hex.
Qed.

Lemma string_app_assoc (a b c : string) :
  ((a ++ b) ++ c)%string = (a ++ (b ++ c))%string.
Proof. induction a as [|x a IH]; cbn; [reflexivity | now rewrite IH]. Qed.

Lemma snoc_app raw c rest :
  (Json.snoc raw c ++ rest)%string = (raw ++ String c rest)%string.
Proof. unfold Json.snoc. now rewrite string_app_assoc. Qed.

Lemma string_app_empty_r (a : string) : (a ++ EmptyString)%string = a.
Proof. induction a as [|x a IH]; cbn; [reflexivity | now rewrite IH]. Qed.

Lemma string_forall_impl (f g : ascii -> bool) s :
  (forall c, f c = true -> g c = true) ->
  string_forall f s = true -> string_forall g s = true.
Proof.
  intros Hfg. induction s as [|c s IH]; cbn; [reflexivity|].
  intros H. apply andb_true_iff in H as [Hc Hs].
  now rewrite (Hfg _ Hc), IH.
Qed.

Lemma lower_hex_plain c : is_lower_hex c = true -> json_plain c = true.
Proof.
  intros H. unfold json_plain, json_unescaped.
  destruct (Ascii.eqb_spec c "034") as [->|_]; [discriminate|].
  destruct (Ascii.eqb_spec c "\") as [->|_]; [discriminate|].
  unfold is_lower_hex in H. unfold Json.is_control. cbn [negb andb].
  destruct (N.ltb_spec (N_of_ascii c) 32) as [Hlt|_];
    destruct (N.ltb_spec (N_of_ascii c) 128) as [Hlt'|Hge'];
    destruct (N.leb_spec 48 (N_of_ascii c)), (N.leb_spec 97 (N_of_ascii c)),
      (N.leb_spec (N_of_ascii c) 57), (N.leb_spec (N_of_ascii c) 102);
    cbn in H; try discriminate; try reflexivity; lia.
Qed.

(** Reading a text in two parts. *)
Lemma run_app a b st members :
  Json.run (a ++ b) st members
  = match Json.run a st members with
    | Some (st', members') => Json.run b st' members'
    | None => None
    end.
Proof.
  revert st members. induction a as [|c a IH]; intros st members;
    cbn [append Json.run]; [reflexivity|].
  destruct (Json.step st members c) as [[st' members']|]; [apply IH | reflexivity].
Qed.

(** Inside a string literal, ASCII characters that need no escape are taken
    as they come. *)
Lemma run_plain text :
  forall p raw members,
    string_forall json_plain text = true ->
    Json.run text (Json.InString p raw) members
    = Some (Json.InString p (raw ++ text)%string, members).
Proof.
  induction text as [|c text IH]; intros p raw members H; cbn [Json.run].
  - now rewrite string_app_empty_r.
  - cbn [string_forall] in H. apply andb_true_iff in H as [Hc Htext].
    unfold json_plain, json_unescaped in Hc.
    apply andb_true_iff in Hc as [Hc Hascii].
    apply andb_true_iff in Hc as [Hc Hctl].
    apply andb_true_iff in Hc as [Hq Hb].
    apply negb_true_iff in Hq, Hb, Hctl.
    cbn [Json.step]. rewrite Hq, Hb, Hctl, Hascii.
    rewrite IH by exact Htext. now rewrite snoc_app.
Qed.

(** Inside a number that does not start with the digit 0, digits are taken
    as they come. *)
Lemma run_digits text :
  forall name c0 digits members,
    Ascii.eqb c0 "0" = false ->
    string_forall Json.is_digit text = true ->
    Json.run text (Json.InNumber name (String c0 digits)) members
    = Some (Json.InNumber name (String c0 digits ++ text)%string, members).
Proof.
  induction text as [|c text IH]; intros name c0 digits members H0 H;
    cbn [Json.run].
  - now rewrite string_app_empty_r.
  - cbn [string_forall] in H. apply andb_true_iff in H as [Hc Htext].
    cbn [Json.step String.eqb]. rewrite Hc, H0.
    unfold Json.snoc. cbn [append].
    rewrite IH by assumption. cbn [append].
    now rewrite string_app_assoc.
Qed.

Lemma digit_not_quote c : Json.is_digit c = true -> Ascii.eqb c "034" = false.
Proof.
  intros H. destruct (Ascii.eqb_spec c "034") as [->|_]; [discriminate | reflexivity].
Qed.

(** A positive number is printed with a first digit other than 0. *)
Lemma put_digits_leading fuel :
  forall z acc,
    0 < z < 10 ^ Z.of_nat fuel ->
    exists d rest,
      FsScanner.put_digits 10 fuel z acc = String (FsScanner.digit_char d) rest
      /\ 1 <= d < 10.
Proof.
  induction fuel as [|fuel IH]; intros z acc Hz.
  - change (10 ^ Z.of_nat 0) with 1 in Hz. lia.
  - cbn [FsScanner.put_digits].
    destruct (Z.eqb_spec (z / 10) 0) as [Hq|Hq].
    + exists (z mod 10), acc. split; [reflexivity|].
      pose proof (Z.div_mod z 10 ltac:(lia)) as Hdm.
      pose proof (Z.mod_pos_bound z 10 ltac:(lia)). lia.
    + apply IH. split.
      * assert (0 <= z / 10) by (apply Z.div_pos; lia). lia.
      * apply Z.div_lt_upper_bound; [lia|].
        rewrite <- Z.pow_succ_r by lia.
        replace (Z.succ (Z.of_nat fuel)) with (Z.of_nat (S fuel)) by lia. lia.
Qed.

(** A 64-bit number in decimal is read back as a JSON number. *)
Lemma run_put_dec z name members :
  0 <= z < 2 ^ 64 ->
  Json.run (FsScanner.put_dec z) (Json.AtValue name) members
  = Some (Json.InNumber name (FsScanner.put_dec z), members).
Proof.
  intros Hz.
  assert (Hdigits : string_forall Json.is_digit (FsScanner.put_dec z) = true).
  { apply put_digits_forall; [lia | | reflexivity].
    intros d Hd. now apply digit_char_decimal. }
  destruct (Z.eq_dec z 0) as [->|Hnz]; [reflexivity|].
  destruct (put_digits_leading 64 z EmptyString) as (d & rest & Hput & Hd).
  { split; [lia|]. apply Z.lt_trans with (2 ^ 64); [lia|]. reflexivity. }
  unfold FsScanner.put_dec in *. rewrite Hput in *.
  cbn [string_forall] in Hdigits. apply andb_true_iff in Hdigits as [Hc Hrest].
  cbn [Json.run Json.step]. rewrite (digit_not_quote _ Hc), Hc.
  rewrite run_digits; [reflexivity | now apply digit_char_nonzero | exact Hrest].
Qed.

(** Reading back a line assembled as [main] assembles it, with the printed
    numbers and the hexadecimal digits left abstract. *)
Lemma run_rendered root fc tb hash :
  string_forall json_plain root = true ->
  (forall name members,
      Json.run fc (Json.AtValue name) members
      = Some (Json.InNumber name fc, members)) ->
  (forall name members,
      Json.run tb (Json.AtValue name) members
      = Some (Json.InNumber name tb, members)) ->
  string_forall json_plain hash = true ->
  Json.run
    ("{"
     ++ FsScanner.quote ++ "root" ++ FsScanner.quote ++ ":"
     ++ FsScanner.quote ++ root ++ FsScanner.quote ++ ","
     ++ FsScanner.quote ++ "file_count" ++ FsScanner.quote ++ ":" ++ fc ++ ","
     ++ FsScanner.quote ++ "total_bytes" ++ FsScanner.quote ++ ":" ++ tb ++ ","
     ++ FsScanner.quote ++ "aggregate_hash" ++ FsScanner.quote ++ ":"
     ++ FsScanner.quote ++ "0x" ++ hash ++ FsScanner.quote ++ "}")%string
    Json.AtStart []
  = Some (Json.AtEnd,
          [("root"%string, Json.VString root);
           ("file_count"%string, Json.VNumber fc);
           ("total_bytes"%string, Json.VNumber tb);
           ("aggregate_hash"%string, Json.VString ("0x" ++ hash)%string)]).
Proof.
  intros Hroot Hfc Htb Hhash.
  unfold FsScanner.quote. cbn.
  rewrite run_app, run_plain by exact Hroot. cbn.
  rewrite run_app, Hfc. cbn.
  rewrite run_app, Htb. cbn.
  rewrite run_app, run_plain by exact Hhash. cbn.
  reflexivity.
Qed.

Lemma fold_step_range l :
  forall a, 0 <= a < 2 ^ 64 -> 0 <= fold_left Spec.fold_step l a < 2 ^ 64.
Proof.
  induction l as [|d l IH]; intros a Ha; cbn [fold_left]; [exact Ha|].
  apply IH. unfold Spec.fold_step. apply Z.mod_pos_bound. lia.
Qed.

(** The state a traversal that runs to its end leaves: two wrapped counters
    and an aggregate below [2^64]. *)
Lemma scan_returns_state fsys root :
  traversal_returns (FsScanner.recursive_directory_iterator fsys root) = true ->
  exists st,
    FsScanner.scan fsys root = Some (FsScanner.Returns st)
    /\ FsScanner.file_count st
       = wrap64 (Z.of_nat (length (visited_entries
           (FsScanner.yielded
              (FsScanner.recursive_directory_iterator fsys root)))))
    /\ FsScanner.total_bytes st
       = wrap64 (sum_sizes (visited_entries
           (FsScanner.yielded
              (FsScanner.recursive_directory_iterator fsys root))))
    /\ 0 <= FsScanner.aggregate st < 2 ^ 64.
Proof.
  intros Hret. eexists. split; [now apply scan_summary|].
  split; [reflexivity|]. split; [reflexivity|].
  cbn [FsScanner.aggregate]. apply fold_step_range. lia.
Qed.

(** For a root that is a directory, made of ASCII characters that need no
    escape in a JSON string, and a traversal that runs to its end, the line
    [main] prints holds one JSON object with the four members [root],
    [file_count], [total_bytes] and [aggregate_hash], in this order; the
    last is the text 0x followed by sixteen lowercase hexadecimal digits. *)
Lemma main_prints_json_for_plain_root fsys prog root rest :
  FsScanner.fs_exists fsys root = FsScanner.Returns true ->
  FsScanner.fs_is_directory fsys root = FsScanner.Returns true ->
  traversal_returns (FsScanner.recursive_directory_iterator fsys root) = true ->
  string_forall json_plain root = true ->
  exists st line hash,
    FsScanner.scan fsys root = Some (FsScanner.Returns st)
    /\ FsScanner.main fsys (prog :: root :: rest)
       = Some (FsScanner.Returns (FsScanner.mk_process 0 line EmptyString))
    /\ Json.parse_line line
       = Some [("root"%string, Json.VString root);
               ("file_count"%string,
                Json.VNumber (FsScanner.put_dec (FsScanner.file_count st)));
               ("total_bytes"%string,
                Json.VNumber (FsScanner.put_dec (FsScanner.total_bytes st)));
               ("aggregate_hash"%string, Json.VString ("0x" ++ hash)%string)]
    /\ hash = FsScanner.setw_setfill 16 "0" (FsScanner.put_hex (FsScanner.aggregate st))
    /\ String.length hash = 16%nat
    /\ string_forall is_lower_hex hash = true.
Proof.
  intros He Hd Hret Hroot.
  destruct (scan_returns_state fsys root Hret) as (st & Hscan & Ec & Eb & Ha).
  assert (Hc : 0 <= FsScanner.file_count st < 2 ^ 64)
    by (rewrite Ec; apply wrap64_range).
  assert (Hb : 0 <= FsScanner.total_bytes st < 2 ^ 64)
    by (rewrite Eb; apply wrap64_range).
  destruct (aggregate_hash_format _ Ha) as [Hlen Hhex].
  exists st, (FsScanner.render root st ++ FsScanner.newline)%string,
    (FsScanner.setw_setfill 16 "0" (FsScanner.put_hex (FsScanner.aggregate st))).
  split; [exact Hscan|].
  split; [now apply main_success|].
  split; [|split; [reflexivity | split; assumption]].
  unfold Json.parse_line, FsScanner.render.
  rewrite run_app, run_rendered; [reflexivity | exact Hroot | | |].
  - intros name members. now apply run_put_dec.
  - intros name members. now apply run_put_dec.
  - apply (string_forall_impl is_lower_hex); [apply lower_hex_plain | exact Hhex].
Qed.

Example json_accepts_utf8_sequence :
  Json.parse_line
    ("{" ++ FsScanner.quote ++ "k" ++ FsScanner.quote ++ ":" ++ FsScanner.quote
     ++ String "195" (String "169" EmptyString)
     ++ FsScanner.quote ++ "}" ++ FsScanner.newline)%string
  = Some [("k"%string, Json.VString (String "195" (String "169" EmptyString)))].
Proof. vm_compute. reflexivity. Qed.

Example json_rejects_lone_high_byte :
  Json.parse_line
    ("{" ++ FsScanner.quote ++ "k" ++ FsScanner.quote ++ ":" ++ FsScanner.quote
     ++ String "233" EmptyString
     ++ FsScanner.quote ++ "}" ++ FsScanner.newline)%string
  = None.
Proof. vm_compute. reflexivity. Qed.

(** C8 at a root written with a backslash.  [main] copies the root between
    the quotation marks without escaping it, so for the empty directory
    [C:\Games] the line printed holds the two characters backslash and G
    inside a string literal, which is no JSON escape: the line is not a JSON
    object, while the exit code is 0. *)
Theorem main_prints_root_unescaped :
  exists line,
    FsScanner.main Examples.fs_backslash
      ["otoshi_fs_scanner"%string; "C:\Games"%string]
    = Some (FsScanner.Returns (FsScanner.mk_process 0 line EmptyString))
    /\ line
       = ("{" ++ FsScanner.quote ++ "root" ++ FsScanner.quote ++ ":"
          ++ FsScanner.quote ++ "C:\Games" ++ FsScanner.quote ++ ","
          ++ FsScanner.quote ++ "file_count" ++ FsScanner.quote ++ ":0,"
          ++ FsScanner.quote ++ "total_bytes" ++ FsScanner.quote ++ ":0,"
          ++ FsScanner.quote ++ "aggregate_hash" ++ FsScanner.quote ++ ":"
          ++ FsScanner.quote ++ "0x14650fb0739d0383" ++ FsScanner.quote
          ++ "}" ++ FsScanner.newline)%string
    /\ Json.parse_line line = None
    /\ string_forall json_unescaped "C:\Games" = false.
Proof.
  eexists. split; [vm_compute; reflexivity|].
  split; [vm_compute; reflexivity|].
  split; [vm_compute; reflexivity | reflexivity].
Qed.

(** * Further properties of the code *)

(** ** The hash primitive: bounds and sensitivity *)

Lemma fnv1a_step_range acc b : 0 <= Spec.fnv1a_step acc b < 2 ^ 64.
Proof. unfold Spec.fnv1a_step. apply Z.mod_pos_bound. lia. Qed.

Lemma fnv1a_from_range l :
  forall acc, 0 <= acc < 2 ^ 64 -> 0 <= Spec.fnv1a_from acc l < 2 ^ 64.
Proof.
  unfold Spec.fnv1a_from.
  induction l as [|b l IH]; intros acc Hacc; cbn [fold_left]; [exact Hacc|].
  apply IH, fnv1a_step_range.
Qed.

Lemma fnv1a_range l : 0 <= Spec.fnv1a l < 2 ^ 64.
Proof. apply fnv1a_from_range. lia. Qed.

Lemma lxor_mod_pow2 n a b :
  0 <= n -> Z.lxor a b mod 2 ^ n = Z.lxor (a mod 2 ^ n) (b mod 2 ^ n).
Proof.
  intros Hn. rewrite <- !Z.land_ones by exact Hn.
  apply Z.bits_inj'. intros i _.
  rewrite !Z.land_spec, !Z.lxor_spec, !Z.land_spec.
  now destruct (Z.testbit a i), (Z.testbit b i), (Z.testbit (Z.ones n) i).
Qed.

Lemma lxor_range64 a b :
  0 <= a < 2 ^ 64 -> 0 <= b < 2 ^ 64 -> 0 <= Z.lxor a b < 2 ^ 64.
Proof.
  intros Ha Hb.
  assert (E : Z.lxor a b mod 2 ^ 64 = Z.lxor a b).
  { rewrite lxor_mod_pow2 by lia. now rewrite !Z.mod_small by assumption. }
  rewrite <- E. apply Z.mod_pos_bound. lia.
Qed.

Lemma lxor_cancel_r a a' b : Z.lxor a b = Z.lxor a' b -> a = a'.
Proof.
  intros H. apply (f_equal (fun x => Z.lxor x b)) in H.
  now rewrite !Z.lxor_assoc, !Z.lxor_nilpotent, !Z.lxor_0_r in H.
Qed.

Lemma lxor_cancel_l a b b' : Z.lxor a b = Z.lxor a b' -> b = b'.
Proof. rewrite !(Z.lxor_comm a). apply lxor_cancel_r. Qed.

(** Multiplication by the FNV prime, an odd number, loses nothing modulo
    [2^64]. *)
Lemma mul_prime_inj a b :
  0 <= a < 2 ^ 64 -> 0 <= b < 2 ^ 64 ->
  (a * 1099511628211) mod 2 ^ 64 = (b * 1099511628211) mod 2 ^ 64 ->
  a = b.
Proof.
  intros Ha Hb H.
  assert (Hinv : forall x, 0 <= x < 2 ^ 64 ->
            ((x * 1099511628211) mod 2 ^ 64 * prime_inverse) mod 2 ^ 64 = x).
  { intros x Hx. rewrite Z.mul_mod_idemp_l by lia.
    rewrite <- Z.mul_assoc, <- Z.mul_mod_idemp_r by lia.
    change ((1099511628211 * prime_inverse) mod 2 ^ 64) with 1.
    rewrite Z.mul_1_r. now apply Z.mod_small. }
  rewrite <- (Hinv a Ha), <- (Hinv b Hb). now rewrite H.
Qed.

Lemma uint8_range64 b : 0 <= uint8 b < 2 ^ 64.
Proof. pose proof (uint8_range b). change (2 ^ 8) with 256 in *. lia. Qed.

Lemma fnv1a_step_inj_acc acc acc' b :
  0 <= acc < 2 ^ 64 -> 0 <= acc' < 2 ^ 64 ->
  Spec.fnv1a_step acc b = Spec.fnv1a_step acc' b -> acc = acc'.
Proof.
  intros Ha Ha' H. unfold Spec.fnv1a_step in H.
  apply mul_prime_inj in H;
    try (apply lxor_range64; [assumption | apply uint8_range64]).
  now apply lxor_cancel_r in H.
Qed.

Lemma fnv1a_step_inj_byte acc b b' :
  0 <= acc < 2 ^ 64 ->
  Spec.fnv1a_step acc b = Spec.fnv1a_step acc b' -> b = b'.
Proof.
  intros Ha H. unfold Spec.fnv1a_step in H.
  apply mul_prime_inj in H;
    try (apply lxor_range64; [assumption | apply uint8_range64]).
  now apply lxor_cancel_l, uint8_inj in H.
Qed.

Lemma fnv1a_from_inj_acc l :
  forall acc acc',
    0 <= acc < 2 ^ 64 -> 0 <= acc' < 2 ^ 64 ->
    Spec.fnv1a_from acc l = Spec.fnv1a_from acc' l -> acc = acc'.
Proof.
  unfold Spec.fnv1a_from.
  induction l as [|b l IH]; intros acc acc' Ha Ha' H; cbn [fold_left] in H.
  - exact H.
  - apply IH in H; try apply fnv1a_step_range.
    now apply fnv1a_step_inj_acc in H.
Qed.

(** X1. [otoshi_fnv1a64] reads positions 0 .. len-1 and nothing else: on a
    buffer holding at least [len] bytes it returns the digest of the first
    [len] bytes, a value below [2^64], whatever follows them; on a shorter
    buffer it reads past the end. *)
Theorem otoshi_fnv1a64_reads_first_len_bytes :
  forall (data : list byte) (len : nat),
    ((len <= length data)%nat ->
     exists digest,
       CryptoHelper.otoshi_fnv1a64 (Some data) len = Some digest
       /\ CryptoHelper.otoshi_fnv1a64 (Some (firstn len data)) len = Some digest
       /\ 0 <= digest < 2 ^ 64)
    /\ ((length data < len)%nat ->
        CryptoHelper.otoshi_fnv1a64 (Some data) len = None).
Proof.
  intros data len. split.
  - intros Hlen. exists (Spec.fnv1a (firstn len data)).
    unfold CryptoHelper.otoshi_fnv1a64.
    rewrite !fnv1a64_for_fold by (try rewrite length_firstn; lia).
    cbn [skipn]. rewrite firstn_firstn, Nat.min_id.
    repeat split; try reflexivity; apply fnv1a_range.
  - intros Hlen. unfold CryptoHelper.otoshi_fnv1a64.
    apply fnv1a64_for_overrun. lia.
Qed.

Lemma otoshi_fnv1a64_reads_first_len_bytes_witness :
  (2 <= length [x61; x62; x63])%nat
  /\ (length [x61; x62; x63] < 4)%nat
  /\ (exists digest,
         CryptoHelper.otoshi_fnv1a64 (Some [x61; x62; x63]) 2 = Some digest
         /\ CryptoHelper.otoshi_fnv1a64 (Some [x61; x62]) 2 = Some digest
         /\ 0 <= digest < 2 ^ 64)
  /\ CryptoHelper.otoshi_fnv1a64 (Some [x61; x62; x63]) 4 = None.
Proof.
  assert (H2 : (2 <= length [x61; x62; x63])%nat) by (cbn; lia).
  assert (H4 : (length [x61; x62; x63] < 4)%nat) by (cbn; lia).
  split; [exact H2|]. split; [exact H4|]. split.
  - exact (proj1 (otoshi_fnv1a64_reads_first_len_bytes [x61; x62; x63] 2) H2).
  - exact (proj2 (otoshi_fnv1a64_reads_first_len_bytes [x61; x62; x63] 4) H4).
Defined.

(** X2. Two buffers of the same length that differ in exactly one byte never
    have the same digest: the XOR with the byte and the multiplication by
    the odd prime modulo [2^64] are both one-to-one. *)
Theorem otoshi_fnv1a64_detects_one_changed_byte :
  forall (before after : list byte) (b b' : byte),
    b <> b' ->
    CryptoHelper.otoshi_fnv1a64 (Some (before ++ b :: after))
      (length (before ++ b :: after))
    <> CryptoHelper.otoshi_fnv1a64 (Some (before ++ b' :: after))
         (length (before ++ b' :: after)).
Proof.
  intros before after b b' Hb H.
  rewrite !otoshi_fnv1a64_whole in H. inversion H as [H']; clear H.
  unfold Spec.fnv1a in H'. rewrite !fnv1a_from_app in H'.
  set (acc := Spec.fnv1a_from 1469598103934665603 before) in H'.
  assert (Hacc : 0 <= acc < 2 ^ 64) by (apply fnv1a_from_range; lia).
  change (Spec.fnv1a_from acc (b :: after))
    with (Spec.fnv1a_from (Spec.fnv1a_step acc b) after) in H'.
  change (Spec.fnv1a_from acc (b' :: after))
    with (Spec.fnv1a_from (Spec.fnv1a_step acc b') after) in H'.
  apply fnv1a_from_inj_acc in H'; try apply fnv1a_step_range.
  apply fnv1a_step_inj_byte in H'; [|exact Hacc]. contradiction.
Qed.

Lemma otoshi_fnv1a64_detects_one_changed_byte_witness :
  x62 <> x7a
  /\ CryptoHelper.otoshi_fnv1a64 (Some [x61; x62; x63]) 3
     <> CryptoHelper.otoshi_fnv1a64 (Some [x61; x7a; x63]) 3.
Proof.
  assert (Hb : x62 <> x7a) by discriminate.
  split; [exact Hb|].
  exact (otoshi_fnv1a64_detects_one_changed_byte [x61] [x63] x62 x7a Hb).
Defined.

(** ** The comparator: symmetry and the bytes it ignores *)

Lemma consttime_body_comm diff l r :
  CryptoHelper.consttime_body diff l r = CryptoHelper.consttime_body diff r l.
Proof. unfold CryptoHelper.consttime_body. now rewrite Z.lxor_comm. Qed.

Lemma consttime_for_comm left_buf right_buf n :
  forall i diff log,
    CryptoHelper.consttime_for left_buf right_buf i n diff log
    = CryptoHelper.consttime_for right_buf left_buf i n diff log.
Proof.
  induction n as [|n IH]; intros i diff log; cbn [CryptoHelper.consttime_for].
  - reflexivity.
  - destruct (nth_error left_buf i) as [l|], (nth_error right_buf i) as [r|];
      try reflexivity.
    rewrite consttime_body_comm. apply IH.
Qed.

(** X3. The comparator is symmetric in its two operands, for every input
    (null pointers and short buffers included), and it looks at the first
    [len] bytes only: two buffers that agree on their first [len] bytes
    compare equal whatever bytes, and however many, follow in each. *)
Theorem otoshi_consttime_eq_symmetric_and_prefix_only :
  (forall (left_buf right_buf : option (list byte)) (len : nat),
      CryptoHelper.otoshi_consttime_eq left_buf right_buf len
      = CryptoHelper.otoshi_consttime_eq right_buf left_buf len)
  /\ (forall common rest_left rest_right : list byte,
         CryptoHelper.otoshi_consttime_eq
           (Some (common ++ rest_left)) (Some (common ++ rest_right))
           (length common)
         = Some 1).
Proof.
  split.
  - intros [l|] [r|] len; try reflexivity.
    unfold CryptoHelper.otoshi_consttime_eq, CryptoHelper.otoshi_consttime_eq_traced.
    now rewrite consttime_for_comm.
  - intros common rest_left rest_right.
    rewrite otoshi_consttime_eq_value by (rewrite length_app; lia).
    assert (E : Spec.or_of_xors
                  (firstn (length common) (common ++ rest_left))
                  (firstn (length common) (common ++ rest_right)) 0 = 0).
    { apply or_of_xors_zero.
      - rewrite !length_firstn, !length_app. lia.
      - split; [reflexivity|].
        rewrite !firstn_app, !Nat.sub_diag, !firstn_all. reflexivity. }
    now rewrite E.
Qed.

(** ** The file hasher: the buffer *)

(** X4. The digest the read loop returns does not depend on what the buffer
    held before the first read: only the bytes each read stored are hashed,
    never the rest of the array. *)
Theorem while_good_ignores_initial_buffer :
  forall (s : FsScanner.ifstream) (buffer buffer' : list byte) (hash : Z),
    length buffer = FsScanner.sizeof_buffer ->
    length buffer' = FsScanner.sizeof_buffer ->
    FsScanner.while_good s buffer hash = FsScanner.while_good s buffer' hash
    /\ exists digest, FsScanner.while_good s buffer hash = Some digest.
Proof.
  intros s buffer buffer' hash Hb Hb'.
  destruct (FsScanner.good s) eqn:Hg.
  - rewrite !(while_good_delivers (length (FsScanner.pending s)))
      by (try apply Nat.le_refl; assumption).
    split; [reflexivity | eauto].
  - rewrite !while_good_not_good by exact Hg. split; [reflexivity | eauto].
Qed.

Lemma while_good_ignores_initial_buffer_witness :
  length MoreExamples.buffer_zeros = FsScanner.sizeof_buffer
  /\ length MoreExamples.buffer_ones = FsScanner.sizeof_buffer
  /\ FsScanner.while_good MoreExamples.stream_abc MoreExamples.buffer_zeros
       FsScanner.kOffset
     = FsScanner.while_good MoreExamples.stream_abc MoreExamples.buffer_ones
         FsScanner.kOffset.
Proof.
  assert (H0 : length MoreExamples.buffer_zeros = FsScanner.sizeof_buffer)
    by (vm_compute; reflexivity).
  assert (H1 : length MoreExamples.buffer_ones = FsScanner.sizeof_buffer)
    by (vm_compute; reflexivity).
  split; [exact H0|]. split; [exact H1|].
  exact (proj1 (while_good_ignores_initial_buffer MoreExamples.stream_abc
                  MoreExamples.buffer_zeros MoreExamples.buffer_ones
                  FsScanner.kOffset H0 H1)).
Defined.

(** ** The directory aggregator: what the aggregate tells apart *)

Lemma file_digest_range fsys file_path :
  0 <= file_digest fsys file_path < 2 ^ 64.
Proof.
  unfold file_digest. destruct (FsScanner.fs_open fsys file_path).
  - apply fnv1a_range.
  - lia.
Qed.

Lemma file_digest_eq fsys fsys' file_path :
  FsScanner.fnv1a64_file fsys file_path = FsScanner.fnv1a64_file fsys' file_path
  <-> file_digest fsys file_path = file_digest fsys' file_path.
Proof.
  rewrite !fnv1a64_file_digest. split; [now intros [= ->] | now intros ->].
Qed.

Lemma scan_for_ext fsys fsys' entries :
  (forall e, In e entries ->
             FsScanner.fnv1a64_file fsys (FsScanner.path e)
             = FsScanner.fnv1a64_file fsys' (FsScanner.path e)) ->
  forall st,
    FsScanner.scan_for fsys entries st = FsScanner.scan_for fsys' entries st.
Proof.
  induction entries as [|e es IH]; intros H st; cbn [FsScanner.scan_for].
  - reflexivity.
  - assert (Hbody : FsScanner.scan_body fsys st e
                    = FsScanner.scan_body fsys' st e).
    { unfold FsScanner.scan_body. now rewrite (H e (or_introl eq_refl)). }
    rewrite Hbody.
    destruct (FsScanner.scan_body fsys' st e) as [[st'|]|]; try reflexivity.
    apply IH. intros e' He'. apply H. now right.
Qed.

(** X5. [main] cannot tell a file that cannot be opened from an empty file:
    when two filesystems answer the path queries and the traversal alike and
    differ only in that files unopenable in the first are empty in the
    second, [main] exits and prints the same in both. *)
Theorem main_takes_unopenable_for_empty :
  forall (fsys fsys' : FsScanner.filesystem) (argv : list string),
    (forall p, FsScanner.fs_exists fsys p = FsScanner.fs_exists fsys' p) ->
    (forall p, FsScanner.fs_is_directory fsys p
               = FsScanner.fs_is_directory fsys' p) ->
    (forall p, FsScanner.recursive_directory_iterator fsys p
               = FsScanner.recursive_directory_iterator fsys' p) ->
    (forall p,
        FsScanner.fs_open fsys p = FsScanner.fs_open fsys' p
        \/ (FsScanner.fs_open fsys p = None
            /\ exists fault,
                FsScanner.fs_open fsys' p = Some (FsScanner.mk_file [] fault))) ->
    FsScanner.main fsys argv = FsScanner.main fsys' argv.
Proof.
  intros fsys fsys' argv Hexists Hdir Hiter Hopen.
  assert (Hdigest : forall p, FsScanner.fnv1a64_file fsys p
                              = FsScanner.fnv1a64_file fsys' p).
  { intros p. apply file_digest_eq. unfold file_digest.
    destruct (Hopen p) as [-> | (-> & fault & ->)]; [reflexivity|].
    unfold delivered_bytes, stream_delivers. cbn [FsScanner.file_bytes FsScanner.read_fault].
    destruct fault; [rewrite firstn_nil|]; reflexivity. }
  unfold FsScanner.main, FsScanner.scan.
  destruct (length argv <? 2)%nat; [reflexivity|].
  rewrite Hexists, Hdir, Hiter.
  rewrite (scan_for_ext fsys fsys') by (intros; apply Hdigest).
  reflexivity.
Qed.

Lemma main_takes_unopenable_for_empty_witness :
  FsScanner.main MoreExamples.fs_unreadable ["otoshi_fs_scanner"; "d"]%string
  = FsScanner.main MoreExamples.fs_empty_file ["otoshi_fs_scanner"; "d"]%string.
Proof.
  apply main_takes_unopenable_for_empty; try reflexivity.
  intros p. cbn [MoreExamples.fs_unreadable MoreExamples.fs_empty_file
                   FsScanner.fs_open].
  destruct (String.eqb p "d/a"); [right | left; reflexivity].
  split; [reflexivity | exists None; reflexivity].
Defined.

Lemma fold_step_inj_digest a d d' :
  0 <= a < 2 ^ 64 -> 0 <= d < 2 ^ 64 -> 0 <= d' < 2 ^ 64 ->
  Spec.fold_step a d = Spec.fold_step a d' -> d = d'.
Proof.
  intros Ha Hd Hd' H. unfold Spec.fold_step in H.
  apply mul_prime_inj in H; try (apply lxor_range64; assumption).
  now apply lxor_cancel_l in H.
Qed.

Lemma fold_step_inj_aggregate a a' d :
  0 <= a < 2 ^ 64 -> 0 <= a' < 2 ^ 64 -> 0 <= d < 2 ^ 64 ->
  Spec.fold_step a d = Spec.fold_step a' d -> a = a'.
Proof.
  intros Ha Ha' Hd H. unfold Spec.fold_step in H.
  apply mul_prime_inj in H; try (apply lxor_range64; assumption).
  now apply lxor_cancel_r in H.
Qed.

Lemma fold_left_fold_step_inj digests :
  Forall (fun d => 0 <= d < 2 ^ 64) digests ->
  forall a a',
    0 <= a < 2 ^ 64 -> 0 <= a' < 2 ^ 64 ->
    fold_left Spec.fold_step digests a = fold_left Spec.fold_step digests a' ->
    a = a'.
Proof.
  induction 1 as [|d ds Hd Hds IH]; intros a a' Ha Ha' H; cbn [fold_left] in H.
  - exact H.
  - apply IH in H; try (unfold Spec.fold_step; apply Z.mod_pos_bound; lia).
    now apply fold_step_inj_aggregate in H.
Qed.

Lemma file_digests_in_range fsys entries :
  Forall (fun d => 0 <= d < 2 ^ 64)
    (map (fun e => file_digest fsys (FsScanner.path e)) entries).
Proof.
  apply Forall_forall. intros d Hd. apply in_map_iff in Hd as (e & <- & _).
  apply file_digest_range.
Qed.

(** X6. The aggregate notices a change of one file: when two filesystems
    yield the same entries for a root, both traversals run to their end and
    [fnv1a64_file] gives the same digest in both for every entry except one
    visited regular file, the two scans end with different aggregates. *)
Theorem scan_aggregate_detects_one_changed_file :
  forall (fsys fsys' : FsScanner.filesystem) (root : string)
         (before after : list FsScanner.dir_entry) (entry : FsScanner.dir_entry),
    FsScanner.recursive_directory_iterator fsys root
    = FsScanner.mk_traversal (before ++ entry :: after) true ->
    FsScanner.recursive_directory_iterator fsys' root
    = FsScanner.mk_traversal (before ++ entry :: after) true ->
    entries_return (before ++ entry :: after) = true ->
    FsScanner.is_regular_file entry = FsScanner.Returns true ->
    FsScanner.file_size entry <> None ->
    (forall e, In e before \/ In e after ->
               FsScanner.fnv1a64_file fsys (FsScanner.path e)
               = FsScanner.fnv1a64_file fsys' (FsScanner.path e)) ->
    FsScanner.fnv1a64_file fsys (FsScanner.path entry)
    <> FsScanner.fnv1a64_file fsys' (FsScanner.path entry) ->
    exists st st',
      FsScanner.scan fsys root = Some (FsScanner.Returns st)
      /\ FsScanner.scan fsys' root = Some (FsScanner.Returns st')
      /\ FsScanner.aggregate st <> FsScanner.aggregate st'.
Proof.
  intros fsys fsys' root before after entry Hit Hit' Hret Hreg Hsize Hsame Hdiff.
  assert (Hr : traversal_returns
                 (FsScanner.recursive_directory_iterator fsys root) = true)
    by (rewrite Hit; unfold traversal_returns; cbn; exact Hret).
  assert (Hr' : traversal_returns
                  (FsScanner.recursive_directory_iterator fsys' root) = true)
    by (rewrite Hit'; unfold traversal_returns; cbn; exact Hret).
  do 2 eexists. split; [now apply scan_summary|].
  split; [now apply scan_summary|].
  cbn [FsScanner.aggregate]. rewrite Hit, Hit'. cbn [FsScanner.yielded].
  assert (Hvis : visited entry = true).
  { unfold visited. rewrite Hreg.
    destruct (FsScanner.file_size entry); [reflexivity | contradiction]. }
  unfold visited_entries. rewrite filter_app. cbn [filter]. rewrite Hvis.
  rewrite !map_app. cbn [map]. rewrite !fold_left_app. cbn [fold_left].
  assert (Hb : map (fun e => file_digest fsys (FsScanner.path e))
                 (filter visited before)
               = map (fun e => file_digest fsys' (FsScanner.path e))
                   (filter visited before)).
  { apply map_ext_in. intros e He. apply filter_In in He as [He _].
    apply file_digest_eq, Hsame. now left. }
  assert (Ha : map (fun e => file_digest fsys (FsScanner.path e))
                 (filter visited after)
               = map (fun e => file_digest fsys' (FsScanner.path e))
                   (filter visited after)).
  { apply map_ext_in. intros e He. apply filter_In in He as [He _].
    apply file_digest_eq, Hsame. now right. }
  rewrite Hb, Ha. intros H.
  apply fold_left_fold_step_inj in H;
    try apply file_digests_in_range;
    try (unfold Spec.fold_step; apply Z.mod_pos_bound; lia).
  apply fold_step_inj_digest in H; try apply file_digest_range.
  - apply Hdiff, file_digest_eq, H.
  - apply fold_step_range. lia.
Qed.

Lemma scan_aggregate_detects_one_changed_file_witness :
  exists st st',
    FsScanner.scan Examples.fs_small "d" = Some (FsScanner.Returns st)
    /\ FsScanner.scan MoreExamples.fs_small_changed "d"
       = Some (FsScanner.Returns st')
    /\ FsScanner.aggregate st <> FsScanner.aggregate st'.
Proof.
  apply (scan_aggregate_detects_one_changed_file
           Examples.fs_small MoreExamples.fs_small_changed "d"
           [] [FsScanner.mk_entry "d/sub" (FsScanner.Returns false) None;
               FsScanner.mk_entry "d/b" (FsScanner.Returns true) None]
           (FsScanner.mk_entry "d/a" (FsScanner.Returns true) (Some 3%N))).
  - reflexivity.
  - reflexivity.
  - reflexivity.
  - reflexivity.
  - discriminate.
  - intros e [[]|[<-|[<-|[]]]]; reflexivity.
  - vm_compute. discriminate.
Defined.

(** ** The printed line read back *)

Lemma digit_value_digit_char d :
  0 <= d < 16 -> digit_value (FsScanner.digit_char d) = Some d.
Proof.
  intros H. apply digit_cases in H.
  repeat (destruct H as [-> | H]; [reflexivity|]). now subst.
Qed.

(** Reading the digits [operator<<] printed gives the number back. *)
Lemma read_put_digits base fuel :
  1 < base <= 16 ->
  forall z acc,
    0 <= z < base ^ Z.of_nat fuel ->
    read_digits base (FsScanner.put_digits base fuel z acc) 0
    = read_digits base acc z.
Proof.
  intros Hbase. induction fuel as [|fuel IH]; intros z acc Hz.
  - change (base ^ Z.of_nat 0) with 1 in Hz. assert (z = 0) by lia. now subst.
  - cbn [FsScanner.put_digits].
    pose proof (Z.mod_pos_bound z base ltac:(lia)) as Hd.
    pose proof (Z.div_mod z base ltac:(lia)) as Hdm.
    assert (Hread : forall a,
              read_digits base
                (String (FsScanner.digit_char (z mod base)) acc) a
              = read_digits base acc (a * base + z mod base)).
    { intros a. cbn [read_digits].
      rewrite digit_value_digit_char by lia.
      destruct (Z.ltb_spec (z mod base) base); [reflexivity | lia]. }
    destruct (Z.eqb_spec (z / base) 0) as [Hq|Hq].
    + rewrite Hread. f_equal. rewrite Hq in Hdm. lia.
    + rewrite IH, Hread.
      * f_equal. lia.
      * split; [apply Z.div_pos; lia|].
        apply Z.div_lt_upper_bound; [lia|].
        rewrite <- Z.pow_succ_r by lia.
        replace (Z.succ (Z.of_nat fuel)) with (Z.of_nat (S fuel)) by lia. lia.
Qed.

Lemma read_put_dec z :
  0 <= z < 2 ^ 64 -> read_digits 10 (FsScanner.put_dec z) 0 = Some z.
Proof.
  intros Hz. unfold FsScanner.put_dec. rewrite read_put_digits; [reflexivity|lia|].
  split; [lia|]. apply Z.lt_trans with (2 ^ 64); [lia | reflexivity].
Qed.

Lemma read_fill_zeros n s :
  read_digits 16 (FsScanner.fill n "0" ++ s)%string 0 = read_digits 16 s 0.
Proof. induction n as [|n IH]; cbn; [reflexivity | exact IH]. Qed.

Lemma read_put_hex16 z :
  0 <= z < 2 ^ 64 ->
  read_digits 16 (FsScanner.setw_setfill 16 "0" (FsScanner.put_hex z)) 0 = Some z.
Proof.
  intros Hz. unfold FsScanner.setw_setfill, FsScanner.put_hex.
  rewrite read_fill_zeros, read_put_digits; [reflexivity|lia|].
  split; [lia|]. apply Z.lt_le_trans with (2 ^ 64); [lia|]. now vm_compute.
Qed.

(** X7. For a root that [fs::exists] and [fs::is_directory] report as a
    directory, made of ASCII characters that need no escape in a JSON string
    (U+0020 to U+007F without the quotation mark and the backslash), and a
    traversal in which no call throws, [main] returns 0 and prints one line
    from which the root and the final file count, byte count and aggregate
    are recovered: the line is a JSON object with the members [root],
    [file_count], [total_bytes], [aggregate_hash] in this order. *)
Theorem main_output_decodes_to_scan_state :
  forall (fsys : FsScanner.filesystem) (prog root : string) (rest : list string),
    FsScanner.fs_exists fsys root = FsScanner.Returns true ->
    FsScanner.fs_is_directory fsys root = FsScanner.Returns true ->
    traversal_returns (FsScanner.recursive_directory_iterator fsys root) = true ->
    string_forall json_plain root = true ->
    exists st line,
      FsScanner.scan fsys root = Some (FsScanner.Returns st)
      /\ FsScanner.main fsys (prog :: root :: rest)
         = Some (FsScanner.Returns (FsScanner.mk_process 0 line EmptyString))
      /\ decode_line line = Some (root, st).
Proof.
  intros fsys prog root rest He Hd Hret Hroot.
  destruct (scan_returns_state fsys root Hret) as (st & Hscan & Ec & Eb & Ha).
  assert (Hc : 0 <= FsScanner.file_count st < 2 ^ 64)
    by (rewrite Ec; apply wrap64_range).
  assert (Hb : 0 <= FsScanner.total_bytes st < 2 ^ 64)
    by (rewrite Eb; apply wrap64_range).
  destruct (aggregate_hash_format _ Ha) as [_ Hhex].
  exists st, (FsScanner.render root st ++ FsScanner.newline)%string.
  split; [exact Hscan|]. split; [now apply main_success|].
  pose proof (read_put_dec _ Hc) as Rc.
  pose proof (read_put_dec _ Hb) as Rb.
  pose proof (read_put_hex16 _ Ha) as Ra.
  assert (Pc : forall name members,
             Json.run (FsScanner.put_dec (FsScanner.file_count st))
               (Json.AtValue name) members
             = Some (Json.InNumber name
                       (FsScanner.put_dec (FsScanner.file_count st)), members))
    by (intros; now apply run_put_dec).
  assert (Pb : forall name members,
             Json.run (FsScanner.put_dec (FsScanner.total_bytes st))
               (Json.AtValue name) members
             = Some (Json.InNumber name
                       (FsScanner.put_dec (FsScanner.total_bytes st)), members))
    by (intros; now apply run_put_dec).
  assert (Ph : string_forall json_plain
                 (FsScanner.setw_setfill 16 "0"
                    (FsScanner.put_hex (FsScanner.aggregate st))) = true)
    by (apply (string_forall_impl is_lower_hex);
        [apply lower_hex_plain | exact Hhex]).
  clear Hscan Hc Hb Ha Hhex Ec Eb.
  unfold decode_line, Json.parse_line, FsScanner.render.
  set (count := FsScanner.put_dec (FsScanner.file_count st)) in *.
  set (bytes := FsScanner.put_dec (FsScanner.total_bytes st)) in *.
  set (hash := FsScanner.setw_setfill 16 "0"
                 (FsScanner.put_hex (FsScanner.aggregate st))) in *.
  clearbody count bytes hash.
  rewrite run_app, run_rendered by assumption.
  cbn. rewrite Rc, Rb, Ra. now destruct st.
Qed.

Lemma main_output_decodes_to_scan_state_witness :
  exists st line,
    FsScanner.scan Examples.fs_small "d" = Some (FsScanner.Returns st)
    /\ FsScanner.main Examples.fs_small ["otoshi_fs_scanner"; "d"]%string
       = Some (FsScanner.Returns (FsScanner.mk_process 0 line EmptyString))
    /\ decode_line line = Some ("d"%string, st).
Proof.
  exact (main_output_decodes_to_scan_state Examples.fs_small
           "otoshi_fs_scanner" "d" [] eq_refl eq_refl eq_refl eq_refl).
Defined.

(** X8. Every 64-bit value is printed in decimal as digits that read back
    to the value, and in hexadecimal under [setw(16)] and [setfill('0')] as
    exactly sixteen lowercase digits that read back to the value. *)
Theorem printed_numbers_read_back :
  forall z : Z,
    0 <= z < 2 ^ 64 ->
    read_digits 10 (FsScanner.put_dec z) 0 = Some z
    /\ string_forall Json.is_digit (FsScanner.put_dec z) = true
    /\ read_digits 16 (FsScanner.setw_setfill 16 "0" (FsScanner.put_hex z)) 0
       = Some z
    /\ String.length (FsScanner.setw_setfill 16 "0" (FsScanner.put_hex z))
       = 16%nat
    /\ string_forall is_lower_hex
         (FsScanner.setw_setfill 16 "0" (FsScanner.put_hex z)) = true.
Proof.
  intros z Hz. destruct (aggregate_hash_format z Hz) as [Hlen Hhex].
  split; [now apply read_put_dec|].
  split.
  - apply put_digits_forall; [lia | | reflexivity].
    intros d Hd. now apply digit_char_decimal.
  - split; [now apply read_put_hex16|]. split; assumption.
Qed.

Lemma printed_numbers_read_back_witness :
  0 <= 255 < 2 ^ 64
  /\ FsScanner.put_dec 255 = "255"%string
  /\ FsScanner.setw_setfill 16 "0" (FsScanner.put_hex 255)
     = "00000000000000ff"%string
  /\ read_digits 16 "00000000000000ff" 0 = Some 255.
Proof.
  assert (H : 0 <= 255 < 2 ^ 64) by (split; [lia | reflexivity]).
  split; [exact H|]. split; [reflexivity|]. split; [reflexivity|].
  exact (proj1 (proj2 (proj2 (printed_numbers_read_back 255 H)))).
Defined.

(** ** The order of the traversal *)

Lemma visited_entries_permutation entries entries' :
  Permutation entries entries' ->
  Permutation (visited_entries entries) (visited_entries entries').
Proof.
  unfold visited_entries.
  induction 1 as [|e l l' _ IH|e e' l|l l' l'' _ IH _ IH']; cbn [filter].
  - constructor.
  - destruct (visited e); [now constructor | exact IH].
  - destruct (visited e), (visited e'); try apply Permutation_refl.
    apply perm_swap.
  - now transitivity (filter visited l').
Qed.

Lemma sum_sizes_permutation entries entries' :
  Permutation entries entries' -> sum_sizes entries = sum_sizes entries'.
Proof.
  unfold sum_sizes.
  induction 1 as [|e l l' _ IH|e e' l|l l' l'' _ IH _ IH']; cbn [map fold_right].
  - reflexivity.
  - now rewrite IH.
  - lia.
  - now rewrite IH.
Qed.

Lemma scan_for_from_init fsys entries :
  entries_return entries = true ->
  FsScanner.scan_for fsys entries FsScanner.scan_init
  = Some (FsScanner.Returns (FsScanner.mk_scan
            (wrap64 (Z.of_nat (length (visited_entries entries))))
            (wrap64 (sum_sizes (visited_entries entries)))
            (fold_left Spec.fold_step
               (map (fun e => file_digest fsys (FsScanner.path e))
                  (visited_entries entries))
               1469598103934665603))).
Proof.
  intros Hret. rewrite scan_for_fold by exact Hret.
  destruct (fold_visit_counts fsys (visited_entries entries) FsScanner.scan_init)
    as (Hc & Hb & Ha); [reflexivity | reflexivity |].
  destruct (fold_left (visit fsys) (visited_entries entries) FsScanner.scan_init)
    as [c b a].
  cbn [FsScanner.file_count FsScanner.total_bytes FsScanner.aggregate] in *.
  subst c b a. reflexivity.
Qed.

Lemma entries_return_permutation entries entries' :
  Permutation entries entries' ->
  entries_return entries = entries_return entries'.
Proof.
  unfold entries_return.
  induction 1 as [|e l l' _ IH|e e' l|l l' l'' _ IH _ IH']; cbn [forallb].
  - reflexivity.
  - now rewrite IH.
  - now rewrite !andb_assoc, (andb_comm (match FsScanner.is_regular_file e' with
                                          | FsScanner.Returns _ => true
                                          | FsScanner.Throws => false
                                          end)).
  - now rewrite IH.
Qed.

(** X9. The file count and the byte count do not depend on the order in
    which the traversal yields the entries: when no [is_regular_file]
    throws, the loop ends with the same two counts in every order, and when
    one throws, the loop is left by the exception in every order.  The
    aggregate does depend on the order: the two one-byte files "a" and "b"
    give different aggregates in the two orders. *)
Theorem scan_counts_ignore_order_aggregate_does_not :
  (forall (fsys : FsScanner.filesystem) (entries entries' : list FsScanner.dir_entry),
      Permutation entries entries' ->
      (entries_return entries = true ->
       exists st st',
         FsScanner.scan_for fsys entries FsScanner.scan_init
         = Some (FsScanner.Returns st)
         /\ FsScanner.scan_for fsys entries' FsScanner.scan_init
            = Some (FsScanner.Returns st')
         /\ FsScanner.file_count st = FsScanner.file_count st'
         /\ FsScanner.total_bytes st = FsScanner.total_bytes st')
      /\ (entries_return entries = false ->
          FsScanner.scan_for fsys entries FsScanner.scan_init
          = Some FsScanner.Throws
          /\ FsScanner.scan_for fsys entries' FsScanner.scan_init
             = Some FsScanner.Throws))
  /\ (exists st st',
         FsScanner.scan_for MoreExamples.fs_two_files
           [MoreExamples.entry_a; MoreExamples.entry_b] FsScanner.scan_init
         = Some (FsScanner.Returns st)
         /\ FsScanner.scan_for MoreExamples.fs_two_files
              [MoreExamples.entry_b; MoreExamples.entry_a] FsScanner.scan_init
            = Some (FsScanner.Returns st')
         /\ FsScanner.aggregate st <> FsScanner.aggregate st').
Proof.
  split.
  - intros fsys entries entries' Hperm. split; intros Hret.
    + assert (Hret' : entries_return entries' = true)
        by (now rewrite <- (entries_return_permutation _ _ Hperm)).
      do 2 eexists. split; [now apply scan_for_from_init|].
      split; [now apply scan_for_from_init|].
      cbn [FsScanner.file_count FsScanner.total_bytes].
      apply visited_entries_permutation in Hperm.
      rewrite (Permutation_length Hperm), (sum_sizes_permutation _ _ Hperm).
      split; reflexivity.
    + assert (Hret' : entries_return entries' = false)
        by (now rewrite <- (entries_return_permutation _ _ Hperm)).
      split; now apply scan_for_throws.
  - do 2 eexists. split; [vm_compute; reflexivity|].
    split; [vm_compute; reflexivity|].
    vm_compute. discriminate.
Qed.

Lemma scan_counts_ignore_order_aggregate_does_not_witness :
  Permutation [MoreExamples.entry_a; MoreExamples.entry_b]
    [MoreExamples.entry_b; MoreExamples.entry_a]
  /\ entries_return [MoreExamples.entry_a; MoreExamples.entry_b] = true
  /\ exists st st',
       FsScanner.scan_for MoreExamples.fs_two_files
         [MoreExamples.entry_a; MoreExamples.entry_b] FsScanner.scan_init
       = Some (FsScanner.Returns st)
       /\ FsScanner.scan_for MoreExamples.fs_two_files
            [MoreExamples.entry_b; MoreExamples.entry_a] FsScanner.scan_init
          = Some (FsScanner.Returns st')
       /\ FsScanner.file_count st = FsScanner.file_count st'
       /\ FsScanner.total_bytes st = FsScanner.total_bytes st'.
Proof.
  assert (Hperm : Permutation [MoreExamples.entry_a; MoreExamples.entry_b]
                    [MoreExamples.entry_b; MoreExamples.entry_a])
    by apply perm_swap.
  split; [exact Hperm|]. split; [reflexivity|].
  exact (proj1 (proj1 scan_counts_ignore_order_aggregate_does_not
                  MoreExamples.fs_two_files _ _ Hperm) eq_refl).
Defined.

(** ** The counters as they are printed *)

(** The line [main] prints, written out. *)
Lemma render_line root st :
  (FsScanner.render root st ++ FsScanner.newline)%string
  = ("{" ++ FsScanner.quote ++ "root" ++ FsScanner.quote ++ ":"
     ++ FsScanner.quote ++ root ++ FsScanner.quote ++ ","
     ++ FsScanner.quote ++ "file_count" ++ FsScanner.quote ++ ":"
     ++ FsScanner.put_dec (FsScanner.file_count st) ++ ","
     ++ FsScanner.quote ++ "total_bytes" ++ FsScanner.quote ++ ":"
     ++ FsScanner.put_dec (FsScanner.total_bytes st) ++ ","
     ++ FsScanner.quote ++ "aggregate_hash" ++ FsScanner.quote ++ ":"
     ++ FsScanner.quote ++ "0x"
     ++ FsScanner.setw_setfill 16 "0" (FsScanner.put_hex (FsScanner.aggregate st))
     ++ FsScanner.quote ++ "}" ++ FsScanner.newline)%string.
Proof.
  unfold FsScanner.render. rewrite !string_app_assoc. reflexivity.
Qed.

(** C10. The two counters of [main] are 64-bit and wrap without notice: a
    traversal that runs to its end leaves a file count equal to the number
    of visited regular files modulo [2^64] and a byte count equal to the sum
    of their sizes modulo [2^64]; and these are the numbers reported: the
    line [main] prints carries, after [file_count] and after [total_bytes],
    decimal digits that read as exactly these two values, with exit code 0
    and nothing on the error stream, whether or not the true values exceed
    64 bits. *)
Theorem scan_counters_wrap_modulo_2_64 :
  forall (fsys : FsScanner.filesystem) (root : string),
    traversal_returns (FsScanner.recursive_directory_iterator fsys root) = true ->
    exists st,
      FsScanner.scan fsys root = Some (FsScanner.Returns st)
      /\ FsScanner.file_count st
         = Z.of_nat (length (visited_entries
             (FsScanner.yielded
                (FsScanner.recursive_directory_iterator fsys root)))) mod 2 ^ 64
      /\ FsScanner.total_bytes st
         = sum_sizes (visited_entries
             (FsScanner.yielded
                (FsScanner.recursive_directory_iterator fsys root))) mod 2 ^ 64
      /\ (forall prog rest,
             FsScanner.fs_exists fsys root = FsScanner.Returns true ->
             FsScanner.fs_is_directory fsys root = FsScanner.Returns true ->
             exists count bytes hash,
               FsScanner.main fsys (prog :: root :: rest)
               = Some (FsScanner.Returns
                         (FsScanner.mk_process 0
                            ("{" ++ FsScanner.quote ++ "root" ++ FsScanner.quote
                             ++ ":" ++ FsScanner.quote ++ root ++ FsScanner.quote
                             ++ "," ++ FsScanner.quote ++ "file_count"
                             ++ FsScanner.quote ++ ":" ++ count
                             ++ "," ++ FsScanner.quote ++ "total_bytes"
                             ++ FsScanner.quote ++ ":" ++ bytes
                             ++ "," ++ FsScanner.quote ++ "aggregate_hash"
                             ++ FsScanner.quote ++ ":" ++ FsScanner.quote
                             ++ "0x" ++ hash ++ FsScanner.quote ++ "}"
                             ++ FsScanner.newline)%string
                            EmptyString))
               /\ string_forall Json.is_digit count = true
               /\ read_digits 10 count 0
                  = Some (Z.of_nat (length (visited_entries
                      (FsScanner.yielded
                         (FsScanner.recursive_directory_iterator fsys root))))
                          mod 2 ^ 64)
               /\ string_forall Json.is_digit bytes = true
               /\ read_digits 10 bytes 0
                  = Some (sum_sizes (visited_entries
                      (FsScanner.yielded
                         (FsScanner.recursive_directory_iterator fsys root)))
                          mod 2 ^ 64)).
Proof.
  intros fsys root Hret.
  destruct (scan_returns_state fsys root Hret) as (st & Hscan & Ec & Eb & _).
  exists st. split; [exact Hscan|]. split; [exact Ec|]. split; [exact Eb|].
  intros prog rest He Hd.
  exists (FsScanner.put_dec (FsScanner.file_count st)),
    (FsScanner.put_dec (FsScanner.total_bytes st)),
    (FsScanner.setw_setfill 16 "0" (FsScanner.put_hex (FsScanner.aggregate st))).
  assert (Hdigits : forall z, string_forall Json.is_digit (FsScanner.put_dec z)
                              = true).
  { intros z. apply put_digits_forall; [lia | | reflexivity].
    intros d Hd'. now apply digit_char_decimal. }
  split.
  - rewrite (main_success _ _ _ _ _ He Hd Hscan), render_line. reflexivity.
  - split; [apply Hdigits|]. split.
    + rewrite read_put_dec by (rewrite Ec; apply wrap64_range). now rewrite Ec.
    + split; [apply Hdigits|].
      rewrite read_put_dec by (rewrite Eb; apply wrap64_range). now rewrite Eb.
Qed.

Lemma scan_counters_wrap_modulo_2_64_witness :
  traversal_returns
    (FsScanner.recursive_directory_iterator Examples.fs_sparse "d") = true
  /\ FsScanner.fs_exists Examples.fs_sparse "d" = FsScanner.Returns true
  /\ FsScanner.fs_is_directory Examples.fs_sparse "d" = FsScanner.Returns true
  /\ sum_sizes (visited_entries
       (FsScanner.yielded
          (FsScanner.recursive_directory_iterator Examples.fs_sparse "d")))
     = 27670116110564327421
  /\ exists count bytes hash,
       FsScanner.main Examples.fs_sparse ["otoshi_fs_scanner"%string; "d"%string]
       = Some (FsScanner.Returns
                 (FsScanner.mk_process 0
                    ("{" ++ FsScanner.quote ++ "root" ++ FsScanner.quote
                     ++ ":" ++ FsScanner.quote ++ "d" ++ FsScanner.quote
                     ++ "," ++ FsScanner.quote ++ "file_count"
                     ++ FsScanner.quote ++ ":" ++ count
                     ++ "," ++ FsScanner.quote ++ "total_bytes"
                     ++ FsScanner.quote ++ ":" ++ bytes
                     ++ "," ++ FsScanner.quote ++ "aggregate_hash"
                     ++ FsScanner.quote ++ ":" ++ FsScanner.quote
                     ++ "0x" ++ hash ++ FsScanner.quote ++ "}"
                     ++ FsScanner.newline)%string
                    EmptyString))
       /\ string_forall Json.is_digit count = true
       /\ read_digits 10 count 0 = Some 3
       /\ string_forall Json.is_digit bytes = true
       /\ read_digits 10 bytes 0 = Some 9223372036854775805.
Proof.
  split; [reflexivity|]. split; [reflexivity|]. split; [reflexivity|].
  split; [reflexivity|].
  destruct (scan_counters_wrap_modulo_2_64 Examples.fs_sparse "d" eq_refl)
    as (st & _ & _ & _ & Hmain).
  exact (Hmain "otoshi_fs_scanner"%string [] eq_refl eq_refl).
Defined.

Example main_prints_wrapped_total :
  FsScanner.main Examples.fs_sparse ["otoshi_fs_scanner"%string; "d"%string]
  = Some (FsScanner.Returns
            (FsScanner.mk_process 0
               ("{" ++ FsScanner.quote ++ "root" ++ FsScanner.quote ++ ":"
                ++ FsScanner.quote ++ "d" ++ FsScanner.quote ++ ","
                ++ FsScanner.quote ++ "file_count" ++ FsScanner.quote ++ ":3,"
                ++ FsScanner.quote ++ "total_bytes" ++ FsScanner.quote
                ++ ":9223372036854775805,"
                ++ FsScanner.quote ++ "aggregate_hash" ++ FsScanner.quote ++ ":"
                ++ FsScanner.quote ++ "0xb139efec8b41c82e" ++ FsScanner.quote
                ++ "}" ++ FsScanner.newline)%string
               EmptyString)).
Proof. vm_compute. reflexivity. Qed.
